(** * energymeter-admin: the admin console's page logic, embedded and verified

    The repository is a React front end: a report page ([Home.tsx]) and two
    CRUD pages ([channels.tsx], [energy_meter.tsx]).  Each page is a set of
    event handlers over component-local state that talk to a REST API with
    [fetch].  The embedding keeps that shape:

    - JavaScript values that arrive from [res.json()] are dynamic: [JS.Value];
    - a handler is a computation in a small state-and-trace monad [M]: it
      reads and writes the component state and emits the effects the browser
      sees ([fetch] calls, toast messages, query invalidations), in order;
    - a promise callback ([.then], the code after an [await]) is a second
      handler, run when the request settles with an [Outcome];
    - each CRUD page is closed into a transition system: [handle] takes one
      event of the rendered controls or of the network through the handler
      bound to it, [run] takes a sequence of them. *)

From Stdlib Require Import Ascii.
From stdpp Require Import gmap strings list pretty.

Open Scope string_scope.
Open Scope list_scope.
Open Scope Z_scope.

(** ** JavaScript values *)

Module JS.

#[warnings="-register-all"]
Inductive Value : Type :=
  | VUndefined
  | VNull
  | VBool (b : bool)
  | VNum (n : Z)
  | VStr (s : string)
  | VArr (l : list Value)
  | VObj (o : gmap string Value).

(** A plain object, as [JSON.parse] builds them. *)
Abbreviation Obj := (gmap string Value).

(** ToBoolean: what [v ? a : b] and [if (v)] test. *)
Definition truthy (v : Value) : bool :=
  match v with
  | VUndefined | VNull => false
  | VBool b => b
  | VNum n => negb (n =? 0)
  | VStr s => negb (String.eqb s "")
  | VArr _ | VObj _ => true
  end.

(** [o.k] on a plain object: a missing property reads [undefined]. *)
Definition get (o : Obj) (k : string) : Value :=
  default VUndefined (o !! k).

(** [v.k] on any value, for a name [k] that is not a member of a built-in
    prototype: [null] and [undefined] throw a TypeError ([None]), arrays
    and primitives have no such property. *)
Definition getProp (v : Value) (k : string) : option Value :=
  match v with
  | VUndefined | VNull => None
  | VObj o => Some (get o k)
  | VBool _ | VNum _ | VStr _ | VArr _ => Some VUndefined
  end.

(** [a === b].  Two arrays or objects are equal only when they are the same
    reference; values parsed from two response bodies never are. *)
Definition strict_eq (a b : Value) : bool :=
  match a, b with
  | VUndefined, VUndefined => true
  | VNull, VNull => true
  | VBool x, VBool y => Bool.eqb x y
  | VNum x, VNum y => x =? y
  | VStr x, VStr y => String.eqb x y
  | _, _ => false
  end.

End JS.
Export JS.

(** ** What a page does to the outside world *)

Inductive Method := GET | POST | PUT | DELETE.

Record Request := mkRequest {
  url : string;
  method : Method;
  body : option string
}.

Inductive Severity := success | info | warn | error.

(** The argument of [toast.current.show]. *)
Record ToastMessage := mkToast {
  severity : Severity;
  summary : string;
  detail : Value
}.

Inductive Effect :=
  | Fetch (r : Request)
  | ToastShow (m : ToastMessage)
  | InvalidateQueries (queryKey : string).

(** How a [fetch(..)] followed by [.json()] settles: one of the two promises
    rejects with an error value, or the body of the response parses to a
    value. *)
Inductive Outcome :=
  | Rejected (err : Value)
  | Resolved (json : Value).

(** Built-ins of the browser and of the libraries the pages call.  Objects
    are finite maps here, so the order in which [JSON.stringify] prints the
    keys is not part of the model. *)
Class Platform := {
  JSON_stringify : Value → string;
  encodeURIComponent : string → string;
  (** zod's [z.string().ip("v4")] *)
  is_ipv4 : string → bool;
  (** [dayjs.tz.guess()] *)
  defaultTimeZone : string
}.

(** ** The handler monad: component state plus an ordered trace of effects *)

Definition M (S A : Type) : Type := S → A * S * list Effect.

Definition ret {S A} (a : A) : M S A := λ s, (a, s, []).

Definition bind {S A B} (m : M S A) (k : A → M S B) : M S B :=
  λ s, let '(a, s1, t1) := m s in
       let '(b, s2, t2) := k a s1 in
       (b, s2, t1 ++ t2).

Definition get_state {S} : M S S := λ s, (s, s, []).
Definition modify {S} (f : S → S) : M S unit := λ s, (tt, f s, []).
Definition emit {S} (e : Effect) : M S unit := λ s, (tt, s, [e]).

Notation "x <- m ;; k" := (bind m (λ x, k))
  (at level 100, m at next level, right associativity).
Notation "m ;; k" := (bind m (λ _, k))
  (at level 100, right associativity).

(** The state and the trace of a finished handler. *)
Definition exec {S A} (m : M S A) (s : S) : S := (m s).1.2.
Definition trace {S A} (m : M S A) (s : S) : list Effect := (m s).2.

Definition requests (t : list Effect) : list Request :=
  omap (λ e, match e with Fetch r => Some r | _ => None end) t.

Definition toasts (t : list Effect) : list ToastMessage :=
  omap (λ e, match e with ToastShow m => Some m | _ => None end) t.

Definition invalidations (t : list Effect) : list string :=
  omap (λ e, match e with InvalidateQueries k => Some k | _ => None end) t.

(** POST, PUT and DELETE change the collection; GET does not. *)
Definition is_mutation (r : Request) : bool :=
  match method r with GET => false | POST | PUT | DELETE => true end.

Definition is_delete (r : Request) : bool :=
  match method r with DELETE => true | _ => false end.

(** ** The report page, [Home.tsx] *)

Module Home.

(** A calendar date in local time, as moment reads it from a [Date]: the
    year, the month from 1 to 12 (what [MM] prints) and the day of the month. *)
Record Date := mkDate { year : Z; month : Z; day : Z }.

(** moment's [zeroFill(number, targetLength)]. *)
Definition zeroFill (number : Z) (targetLength : nat) : string :=
  let absNumber := pretty (Z.abs number) in
  let zerosToFill := (targetLength - String.length absNumber)%nat in
  (if 0 <=? number then "" else "-")
    +:+ String.string_of_list_ascii (replicate zerosToFill "0"%char) +:+ absNumber.

(** [moment(d).format("YYYY-MM-DD")]. *)
Definition format_YYYY_MM_DD (d : Date) : string :=
  zeroFill (year d) 4 +:+ "-" +:+ zeroFill (month d) 2 +:+ "-" +:+ zeroFill (day d) 2.

(** The data [handleSubmit] passes on once the zod schema accepted it.
    [channel] is [z.number().nullable()]: [None] is [null]. *)
Record FormValues := mkFormValues {
  fromDate : Date;
  toDate : Date;
  ipAddress : string;
  channel : option Z;
  details : string
}.

(** What the form controls hold before validation; a control that was never
    set holds [undefined] ([None]). *)
Record FormState := mkFormState {
  f_fromDate : option Date;
  f_toDate : option Date;
  f_ipAddress : option string;
  f_channel : option (option Z);
  f_details : option string
}.

Record State := mkState {
  measurements : Value;
  channels : Value;
  (** [toast.current !== null] *)
  toast_current : bool
}.

(** The component as first rendered and mounted. *)
Definition mounted : State :=
  {| measurements := VArr []; channels := VArr []; toast_current := true |}.

Definition setMeasurements (v : Value) : M State unit :=
  modify (λ st, {| measurements := v; channels := channels st;
                   toast_current := toast_current st |}).


Section WithPlatform.
Context `{Platform}.

Definition schema (f : FormState) : option FormValues :=
  match f_fromDate f, f_toDate f, f_ipAddress f, f_channel f, f_details f with
  | Some from, Some to, Some ip, Some ch, Some det =>
      if is_ipv4 ip && negb (String.eqb ip "") && negb (String.eqb det "")
      then Some {| fromDate := from; toDate := to; ipAddress := ip;
                   channel := ch; details := det |}
      else None
  | _, _, _, _, _ => None
  end.

Definition show (sev : Severity) (message : Value) : M State unit :=
  st <- get_state ;;
  if toast_current st
  then emit (ToastShow {| severity := sev; summary := "Form submit"; detail := message |})
  else ret tt.

Definition onSubmitError : M State unit :=
  show error (VStr "Please fill form as needed. Read tooltips on red marked fields.").

(** The path [updateTable] fetches. *)
Definition report_path (params : FormValues) : string :=
  let path :=
    "/api/measurements/report?fromdate=" +:+ format_YYYY_MM_DD (fromDate params)
      +:+ "&todate=" +:+ format_YYYY_MM_DD (toDate params)
      +:+ "&ip=" +:+ ipAddress params
      +:+ "&details=" +:+ details params in
  match channel params with
  | Some c => if 0 <? c then path +:+ "&channel=" +:+ pretty c else path
  | None => path
  end.

(** [updateTable] up to its first [await]. *)
Definition updateTable (params : FormValues) : M State unit :=
  emit (Fetch {| url := report_path params; method := GET; body := None |}).

(** [updateTable] from [await fetch(path)] on.  A rejected fetch or
    [json()] and a [null] body (reading [values.err] throws) reject the
    async function: nothing more runs. *)
Definition updateTable_resume (o : Outcome) : M State unit :=
  match o with
  | Rejected _ => ret tt
  | Resolved values =>
      match getProp values "err" with
      | None => ret tt
      | Some err =>
          if truthy err
          then (show error err ;; setMeasurements (VArr []))
          else setMeasurements values
      end
  end.

(** [now_year] is [moment().get("year")]. *)
Definition onSubmit (now_year : Z) (data : FormValues) : M State unit :=
  if (year (fromDate data) <? now_year) && negb (String.eqb (details data) "monthly")
  then show error (VStr "Details must be monthly when required year less then current year")
  else updateTable data.

(** [handleSubmit(onSubmit, onSubmitError)]. *)
Definition handleSubmit (now_year : Z) (f : FormState) : M State unit :=
  match schema f with
  | Some data => onSubmit now_year data
  | None => onSubmitError
  end.




End WithPlatform.

End Home.

(** ** What the two CRUD pages share through PrimeReact and React *)

(** PrimeReact's [DataTableStateEvent], the lazy state of a table. *)
Record DataTableStateEvent := mkDataTableStateEvent {
  first : Z;
  rows : Z;
  page : Z;
  pageCount : Z;
  sortField : string;
  sortOrder : Z;
  multiSortMeta : list Value;
  filters : Obj
}.

Definition initialLazyState : DataTableStateEvent :=
  {| first := 0; rows := 10; page := 0; pageCount := 0; sortField := "";
     sortOrder := 1; multiSortMeta := []; filters := ∅ |}.

(** [event.first = 0] *)
Definition set_first (v : Z) (e : DataTableStateEvent) : DataTableStateEvent :=
  {| first := v; rows := rows e; page := page e; pageCount := pageCount e;
     sortField := sortField e; sortOrder := sortOrder e;
     multiSortMeta := multiSortMeta e; filters := filters e |}.

(** A reference to a row object of a table: the identity of the object and
    the fields it holds.  React compares the dependencies of [useEffect] with
    [Object.is], which on objects is identity of reference, not equality of
    fields: two fetches give two references even to equal rows. *)
Record Ref (A : Type) := mkRef { oid : nat; obj : A }.
Arguments mkRef {A}.
Arguments oid {A}.
Arguments obj {A}.

#[global] Instance Ref_eq_dec {A} `{EqDecision A} : EqDecision (Ref A).
Proof. solve_decision. Defined.

(** [Object.is(a, b)] for two values of type [Row | null]. *)
Definition Object_is {A} `{EqDecision A} (a b : option (Ref A)) : bool :=
  bool_decide (a = b).

(** ** The channels page, [channels.tsx] *)

Module Channels.

(** Modelled from the spec: the declaration of [ChannelValues] is not among
    the sources; its fields are those of the data model's Channel,
    [{ id, energy_meter_id, channel, channel_name, enabled }]. *)
Record ChannelValues := mkChannelValues {
  id : Z;
  energy_meter_id : Z;
  channel : Z;
  channel_name : string;
  enabled : bool
}.

#[global] Instance ChannelValues_eq_dec : EqDecision ChannelValues.
Proof. solve_decision. Defined.

(** The data the zod schema lets through. *)
Record FormValues := mkFormValues {
  fv_energy_meter_id : Z;
  fv_channel : Z;
  fv_channel_name : string;
  fv_enabled : bool
}.

(** react-hook-form's values of the four controls; a cleared [InputNumber]
    holds [null] ([None]). *)
Record FormState := mkFormState {
  f_energy_meter_id : Z;
  f_channel : option Z;
  f_channel_name : string;
  f_enabled : bool
}.

(** The promise callbacks a handler leaves behind. *)
Inductive Continuation :=
  | AfterUpdate
  | AfterSave
  | AfterDelete
  | AfterFetchEnergyMeters
  | AfterExport.

Record State := mkState {
  lazyState : DataTableStateEvent;
  editedRow : option (Ref ChannelValues);
  selectedRow : option (Ref ChannelValues);
  visible : bool;
  confirmDialogVisible : bool;
  energy_meterValues : Value;
  formValues : FormState;
  (** [toast.current !== null] *)
  toast_current : bool;
  pending : list Continuation
}.

Definition setLazyState (v : DataTableStateEvent) : M State unit :=
  modify (λ st, mkState v (editedRow st) (selectedRow st) (visible st)
    (confirmDialogVisible st) (energy_meterValues st) (formValues st)
    (toast_current st) (pending st)).

Definition setEditedRow (v : option (Ref ChannelValues)) : M State unit :=
  modify (λ st, mkState (lazyState st) v (selectedRow st) (visible st)
    (confirmDialogVisible st) (energy_meterValues st) (formValues st)
    (toast_current st) (pending st)).

Definition setSelectedRow (v : option (Ref ChannelValues)) : M State unit :=
  modify (λ st, mkState (lazyState st) (editedRow st) v (visible st)
    (confirmDialogVisible st) (energy_meterValues st) (formValues st)
    (toast_current st) (pending st)).

Definition setVisible (v : bool) : M State unit :=
  modify (λ st, mkState (lazyState st) (editedRow st) (selectedRow st) v
    (confirmDialogVisible st) (energy_meterValues st) (formValues st)
    (toast_current st) (pending st)).

Definition setConfirmDialogVisible (v : bool) : M State unit :=
  modify (λ st, mkState (lazyState st) (editedRow st) (selectedRow st) (visible st)
    v (energy_meterValues st) (formValues st)
    (toast_current st) (pending st)).

Definition setEnergy_meterValues (v : Value) : M State unit :=
  modify (λ st, mkState (lazyState st) (editedRow st) (selectedRow st) (visible st)
    (confirmDialogVisible st) v (formValues st)
    (toast_current st) (pending st)).

Definition setFormValues (v : FormState) : M State unit :=
  modify (λ st, mkState (lazyState st) (editedRow st) (selectedRow st) (visible st)
    (confirmDialogVisible st) (energy_meterValues st) v
    (toast_current st) (pending st)).

Definition setPending (v : list Continuation) : M State unit :=
  modify (λ st, mkState (lazyState st) (editedRow st) (selectedRow st) (visible st)
    (confirmDialogVisible st) (energy_meterValues st) (formValues st)
    (toast_current st) v).

(** [setValue(name, v)] of react-hook-form, one per control. *)
Definition setValue_energy_meter_id (v : Z) : M State unit :=
  st <- get_state ;;
  let f := formValues st in
  setFormValues (mkFormState v (f_channel f) (f_channel_name f) (f_enabled f)).

Definition setValue_channel (v : option Z) : M State unit :=
  st <- get_state ;;
  let f := formValues st in
  setFormValues (mkFormState (f_energy_meter_id f) v (f_channel_name f) (f_enabled f)).

Definition setValue_channel_name (v : string) : M State unit :=
  st <- get_state ;;
  let f := formValues st in
  setFormValues (mkFormState (f_energy_meter_id f) (f_channel f) v (f_enabled f)).

Definition setValue_enabled (v : bool) : M State unit :=
  st <- get_state ;;
  let f := formValues st in
  setFormValues (mkFormState (f_energy_meter_id f) (f_channel f) (f_channel_name f) v).

(** [fetch(..).then(..)]: the request goes out now, the callback waits. *)
Definition fetch_then (r : Request) (k : Continuation) : M State unit :=
  emit (Fetch r) ;;
  st <- get_state ;;
  setPending (pending st ++ [k]).

Definition onPage (event : DataTableStateEvent) : M State unit :=
  setLazyState event.

Definition onFilter (event : DataTableStateEvent) : M State unit :=
  let event := set_first 0 event in
  setLazyState event.

Definition onSelectionChange (value : option (Ref ChannelValues)) : M State unit :=
  setSelectedRow value.

Definition updatePage : M State unit :=
  emit (InvalidateQueries "channels") ;;
  emit (InvalidateQueries "channelscount") ;;
  setSelectedRow None.

Definition show (sev : Severity) (message : Value) : M State unit :=
  st <- get_state ;;
  if toast_current st
  then emit (ToastShow {| severity := sev; summary := "Form submit"; detail := message |})
  else ret tt.

Definition onSubmitError : M State unit :=
  show error (VStr "Please fill form as needed. Read tooltips on red marked fields.").

(** The zod schema: [energy_meter_id] a number, [channel] a number at least
    1, [channel_name] a non-empty string, [enabled] a boolean. *)
Definition schema (f : FormState) : option FormValues :=
  match f_channel f with
  | Some c =>
      if (1 <=? c) && negb (String.eqb (f_channel_name f) "")
      then Some {| fv_energy_meter_id := f_energy_meter_id f; fv_channel := c;
                   fv_channel_name := f_channel_name f; fv_enabled := f_enabled f |}
      else None
  | None => None
  end.

(** The post-processing of the list query's [queryFn]: [values] is the body
    of the page request, [energyMetersValues] that of the full energy-meter
    collection, both JSON arrays of objects. *)
Definition queryFn_element (energyMetersValues : list Obj) (element : Obj) : Obj :=
  let result := List.filter
    (λ energyMeter, strict_eq (get energyMeter "id") (get element "energy_meter_id"))
    energyMetersValues in
  let element :=
    match result with
    | m :: _ => <["assset_name" := get m "asset_name"]> element
    | [] => element
    end in
  <["enabled" := VBool (if truthy (get element "enabled") then true else false)]> element.

Definition queryFn (values energyMetersValues : list Obj) : list Obj :=
  map (queryFn_element energyMetersValues) values.

Section WithPlatform.
Context `{Platform}.

(** The two requests of the list query, in order. *)
Definition queryFn_fetches (lazyState : DataTableStateEvent) : list Request :=
  let filters := encodeURIComponent (JSON_stringify (VObj (filters lazyState))) in
  [ {| url := "/api/admin/crud/channels?first=" +:+ pretty (first lazyState)
                +:+ "&rowcount=" +:+ pretty (rows lazyState)
                +:+ "&filter=" +:+ filters;
       method := GET; body := None |};
    {| url := "/api/admin/crud/energy_meter"; method := GET; body := None |} ].

Definition params_of (data : FormValues) : Value :=
  VObj (list_to_map
    [ ("energy_meter_id", VNum (fv_energy_meter_id data));
      ("channel", VNum (fv_channel data));
      ("channel_name", VStr (fv_channel_name data));
      ("enabled", VBool (fv_enabled data)) ]).

Definition onSubmit (data : FormValues) : M State unit :=
  let params := params_of data in
  st <- get_state ;;
  match editedRow st with
  | Some r =>
      if negb (id (obj r) =? 0)
      then fetch_then
             {| url := "/api/admin/crud/channels/" +:+ pretty (id (obj r));
                method := PUT; body := Some (JSON_stringify params) |}
             AfterUpdate
      else fetch_then
             {| url := "/api/admin/crud/channels";
                method := POST; body := Some (JSON_stringify params) |}
             AfterSave
  | None =>
      fetch_then
        {| url := "/api/admin/crud/channels";
           method := POST; body := Some (JSON_stringify params) |}
        AfterSave
  end.

(** [handleSubmit(onSubmit, onSubmitError)] *)
Definition handleSubmit : M State unit :=
  st <- get_state ;;
  match schema (formValues st) with
  | Some data => onSubmit data
  | None => onSubmitError
  end.

Definition fetchEnergy_meterValues : M State unit :=
  fetch_then {| url := "/api/admin/crud/energy_meter"; method := GET; body := None |}
    AfterFetchEnergyMeters.

(** The body of [useEffect(.., [editedRow, setValue])]. *)
Definition editedRowEffect : M State unit :=
  fetchEnergy_meterValues ;;
  st <- get_state ;;
  match editedRow st with
  | Some r =>
      if negb (id (obj r) =? 0)
      then (setValue_energy_meter_id (energy_meter_id (obj r)) ;;
            setValue_channel (Some (channel (obj r))) ;;
            setValue_channel_name (channel_name (obj r)) ;;
            setValue_enabled (if enabled (obj r) then true else false))
      else (setValue_energy_meter_id (-1) ;;
            setValue_channel (Some 1) ;;
            setValue_channel_name "" ;;
            setValue_enabled false)
  | None =>
      setValue_energy_meter_id (-1) ;;
      setValue_channel (Some 1) ;;
      setValue_channel_name "" ;;
      setValue_enabled false
  end.

(** React runs the effect after a render in which [editedRow] is not the
    object it was at the previous render. *)
Definition afterRender (previous : option (Ref ChannelValues)) : M State unit :=
  st <- get_state ;;
  if Object_is previous (editedRow st) then ret tt else editedRowEffect.

Definition deleteSelectedRow : M State unit :=
  st <- get_state ;;
  match selectedRow st with
  | Some r =>
      fetch_then
        {| url := "/api/admin/crud/channels/" +:+ pretty (id (obj r));
           method := DELETE;
           body := Some (JSON_stringify (VObj {[ "action" := VStr "delete" ]})) |}
        AfterDelete
  | None => ret tt
  end.

(** [exportCSV] up to its first [await].  What follows converts the body to
    CSV and downloads it with [utils/Converter]; it reads and writes nothing
    of the page. *)
Definition exportCSV : M State unit :=
  fetch_then {| url := "/api/admin/crud/channels"; method := GET; body := None |}
    AfterExport.

(** The callbacks.  [.catch] receives what the fetch or [response.json()]
    rejected with. *)
Definition resume (k : Continuation) (o : Outcome) : M State unit :=
  match k, o with
  | AfterUpdate, Resolved data =>
      updatePage ;; setVisible false ;;
      show success (VStr ("Updated channel: " +:+ JSON_stringify data))
  | AfterSave, Resolved data =>
      updatePage ;; setVisible false ;;
      show success (VStr ("Saved channel: " +:+ JSON_stringify data))
  | AfterDelete, Resolved data =>
      show success (VStr ("Deleted channels: " +:+ JSON_stringify data)) ;;
      updatePage
  | (AfterUpdate | AfterSave | AfterDelete), Rejected err => show error err
  | AfterFetchEnergyMeters, Resolved data => setEnergy_meterValues data
  | AfterFetchEnergyMeters, Rejected _ => ret tt
  | AfterExport, _ => ret tt
  end.

(** The [i]-th request in flight settles. *)
Definition settle (i : nat) (o : Outcome) : M State unit :=
  st <- get_state ;;
  match pending st !! i with
  | Some k => setPending (delete i (pending st)) ;; resume k o
  | None => ret tt
  end.

(** [disabled={selectedRow && selectedRow.id ? false : true}] of the
    Modify and Delete buttons. *)
Definition button_disabled (st : State) : bool :=
  match selectedRow st with
  | Some r => if negb (id (obj r) =? 0) then false else true
  | None => true
  end.

(** What the user and the network can do to the page. *)
Inductive Event :=
  | Page (event : DataTableStateEvent)
  | Filter (event : DataTableStateEvent)
  | SelectionChange (value : option (Ref ChannelValues))
  | ClickNew
  | ClickModify
  | ClickDelete
  | HideDialog
  | ConfirmAccept
  | ConfirmHide
  | ChangeEnergyMeter (v : Z)
  | ChangeChannel (v : option Z)
  | ChangeChannelName (v : string)
  | ChangeEnabled (v : bool)
  | Submit
  | ClickExport
  | Settle (i : nat) (o : Outcome).

(** One event, through the handler the rendered page binds to it.  A
    control that is disabled or not rendered takes no event. *)
Definition handle (ev : Event) : M State unit :=
  st <- get_state ;;
  match ev with
  | Page event => onPage event
  | Filter event => onFilter event
  | SelectionChange value => onSelectionChange value
  | ClickNew =>
      setSelectedRow None ;; setEditedRow None ;; setVisible true ;;
      afterRender (editedRow st)
  | ClickModify =>
      if button_disabled st then ret tt
      else (setEditedRow (selectedRow st) ;; setVisible true ;;
            afterRender (editedRow st))
  | ClickDelete =>
      if button_disabled st then ret tt else setConfirmDialogVisible true
  | HideDialog =>
      if visible st then setVisible false else ret tt
  | ConfirmAccept =>
      if confirmDialogVisible st
      then (deleteSelectedRow ;; setConfirmDialogVisible false)
      else ret tt
  | ConfirmHide =>
      if confirmDialogVisible st then setConfirmDialogVisible false else ret tt
  | ChangeEnergyMeter v =>
      if visible st then setValue_energy_meter_id v else ret tt
  | ChangeChannel v =>
      if visible st then setValue_channel v else ret tt
  | ChangeChannelName v =>
      if visible st then setValue_channel_name v else ret tt
  | ChangeEnabled v =>
      if visible st then setValue_enabled (if v then true else false) else ret tt
  | Submit => if visible st then handleSubmit else ret tt
  | ClickExport => exportCSV
  | Settle i o => settle i o
  end.

(** The page after its first render and first effect. *)
Definition mounted : State :=
  {| lazyState := initialLazyState; editedRow := None; selectedRow := None;
     visible := false; confirmDialogVisible := false;
     energy_meterValues := VArr [];
     formValues := {| f_energy_meter_id := -1; f_channel := Some 1;
                      f_channel_name := ""; f_enabled := false |};
     toast_current := true;
     pending := [AfterFetchEnergyMeters] |}.

(** A run of the page: the states and the trace it goes through. *)
Fixpoint run (evs : list Event) (st : State) : State * list Effect :=
  match evs with
  | [] => (st, [])
  | ev :: evs =>
      let '(st', t) := run evs (exec (handle ev) st) in
      (st', trace (handle ev) st ++ t)
  end.

End WithPlatform.

End Channels.

(** ** The energy meter page, [energy_meter.tsx] *)

Module EnergyMeter.

(** Modelled from the spec: the declaration of [EnergyMeterValues] with its
    [id] is not among the sources; its fields are those of the data model's
    EnergyMeter, [{ id, asset_name, ip_address, port, time_zone, enabled }]. *)
Record EnergyMeterValues := mkEnergyMeterValues {
  id : Z;
  asset_name : string;
  ip_address : string;
  port : Z;
  time_zone : string;
  enabled : bool
}.

#[global] Instance EnergyMeterValues_eq_dec : EqDecision EnergyMeterValues.
Proof. solve_decision. Defined.

(** The data the zod schema lets through. *)
Record FormValues := mkFormValues {
  fv_asset_name : string;
  fv_ip_address : string;
  fv_port : Z;
  fv_time_zone : string;
  fv_enabled : bool
}.

(** react-hook-form's values of the five controls; a cleared [InputNumber]
    holds [null] ([None]). *)
Record FormState := mkFormState {
  f_asset_name : string;
  f_ip_address : string;
  f_port : option Z;
  f_time_zone : string;
  f_enabled : bool
}.

Inductive Continuation :=
  | AfterUpdate
  | AfterSave
  | AfterDelete.

Record State := mkState {
  lazyState : DataTableStateEvent;
  editedRow : option (Ref EnergyMeterValues);
  selectedRow : option (Ref EnergyMeterValues);
  visible : bool;
  confirmDialogVisible : bool;
  formValues : FormState;
  (** [toast.current !== null] *)
  toast_current : bool;
  pending : list Continuation
}.

Definition setLazyState (v : DataTableStateEvent) : M State unit :=
  modify (λ st, mkState v (editedRow st) (selectedRow st) (visible st)
    (confirmDialogVisible st) (formValues st) (toast_current st) (pending st)).

Definition setEditedRow (v : option (Ref EnergyMeterValues)) : M State unit :=
  modify (λ st, mkState (lazyState st) v (selectedRow st) (visible st)
    (confirmDialogVisible st) (formValues st) (toast_current st) (pending st)).

Definition setSelectedRow (v : option (Ref EnergyMeterValues)) : M State unit :=
  modify (λ st, mkState (lazyState st) (editedRow st) v (visible st)
    (confirmDialogVisible st) (formValues st) (toast_current st) (pending st)).

Definition setVisible (v : bool) : M State unit :=
  modify (λ st, mkState (lazyState st) (editedRow st) (selectedRow st) v
    (confirmDialogVisible st) (formValues st) (toast_current st) (pending st)).

Definition setConfirmDialogVisible (v : bool) : M State unit :=
  modify (λ st, mkState (lazyState st) (editedRow st) (selectedRow st) (visible st)
    v (formValues st) (toast_current st) (pending st)).

Definition setFormValues (v : FormState) : M State unit :=
  modify (λ st, mkState (lazyState st) (editedRow st) (selectedRow st) (visible st)
    (confirmDialogVisible st) v (toast_current st) (pending st)).

Definition setPending (v : list Continuation) : M State unit :=
  modify (λ st, mkState (lazyState st) (editedRow st) (selectedRow st) (visible st)
    (confirmDialogVisible st) (formValues st) (toast_current st) v).

(** [setValue(name, v)] of react-hook-form, one per control. *)
Definition setValue_asset_name (v : string) : M State unit :=
  st <- get_state ;;
  let f := formValues st in
  setFormValues (mkFormState v (f_ip_address f) (f_port f) (f_time_zone f) (f_enabled f)).

Definition setValue_ip_address (v : string) : M State unit :=
  st <- get_state ;;
  let f := formValues st in
  setFormValues (mkFormState (f_asset_name f) v (f_port f) (f_time_zone f) (f_enabled f)).

Definition setValue_port (v : option Z) : M State unit :=
  st <- get_state ;;
  let f := formValues st in
  setFormValues (mkFormState (f_asset_name f) (f_ip_address f) v (f_time_zone f) (f_enabled f)).

Definition setValue_time_zone (v : string) : M State unit :=
  st <- get_state ;;
  let f := formValues st in
  setFormValues (mkFormState (f_asset_name f) (f_ip_address f) (f_port f) v (f_enabled f)).

Definition setValue_enabled (v : bool) : M State unit :=
  st <- get_state ;;
  let f := formValues st in
  setFormValues (mkFormState (f_asset_name f) (f_ip_address f) (f_port f) (f_time_zone f) v).

(** [fetch(..).then(..)]: the request goes out now, the callback waits. *)
Definition fetch_then (r : Request) (k : Continuation) : M State unit :=
  emit (Fetch r) ;;
  st <- get_state ;;
  setPending (pending st ++ [k]).

Definition onPage (event : DataTableStateEvent) : M State unit :=
  setLazyState event.

Definition onFilter (event : DataTableStateEvent) : M State unit :=
  let event := set_first 0 event in
  setLazyState event.

Definition onSelectionChange (value : option (Ref EnergyMeterValues)) : M State unit :=
  setSelectedRow value.

Definition updatePage : M State unit :=
  emit (InvalidateQueries "energy_meter") ;;
  emit (InvalidateQueries "energy_metercount") ;;
  setSelectedRow None.

Definition show (sev : Severity) (message : Value) : M State unit :=
  st <- get_state ;;
  if toast_current st
  then emit (ToastShow {| severity := sev; summary := "Form submit"; detail := message |})
  else ret tt.

Definition onSubmitError : M State unit :=
  show error (VStr "Please fill form as needed. Read tooltips on red marked fields.").

(** The post-processing of the list query's [queryFn]. *)
Definition queryFn_element (element : Obj) : Obj :=
  <["enabled" := VBool (if truthy (get element "enabled") then true else false)]> element.

Definition queryFn (values : list Obj) : list Obj :=
  map queryFn_element values.

(** [disabled={(editedRow !== undefined && editedRow !== null) && editedRow.id > -1}]
    of the IP address and the port inputs. *)
Definition ip_port_disabled (st : State) : bool :=
  match editedRow st with
  | Some r => -1 <? id (obj r)
  | None => false
  end.

(** [disabled={selectedRow && selectedRow.id ? false : true}] of the
    Modify and Delete buttons. *)
Definition button_disabled (st : State) : bool :=
  match selectedRow st with
  | Some r => if negb (id (obj r) =? 0) then false else true
  | None => true
  end.

Section WithPlatform.
Context `{Platform}.

(** The zod schema: [asset_name] and [time_zone] non-empty strings,
    [ip_address] a non-empty IPv4 address, [port] a number at least 1,
    [enabled] a boolean. *)
Definition schema (f : FormState) : option FormValues :=
  match f_port f with
  | Some p =>
      if negb (String.eqb (f_asset_name f) "")
         && is_ipv4 (f_ip_address f) && negb (String.eqb (f_ip_address f) "")
         && (1 <=? p)
         && negb (String.eqb (f_time_zone f) "")
      then Some {| fv_asset_name := f_asset_name f; fv_ip_address := f_ip_address f;
                   fv_port := p; fv_time_zone := f_time_zone f;
                   fv_enabled := f_enabled f |}
      else None
  | None => None
  end.

(** The request of the list query. *)
Definition queryFn_fetches (lazyState : DataTableStateEvent) : list Request :=
  let filters := encodeURIComponent (JSON_stringify (VObj (filters lazyState))) in
  [ {| url := "/api/admin/crud/energy_meter?first=" +:+ pretty (first lazyState)
                +:+ "&rowcount=" +:+ pretty (rows lazyState)
                +:+ "&filter=" +:+ filters;
       method := GET; body := None |} ].

Definition params_of (data : FormValues) : Value :=
  VObj (list_to_map
    [ ("asset_name", VStr (fv_asset_name data));
      ("ip_address", VStr (fv_ip_address data));
      ("port", VNum (fv_port data));
      ("time_zone", VStr (fv_time_zone data));
      ("enabled", VBool (if fv_enabled data then true else false)) ]).

Definition onSubmit (data : FormValues) : M State unit :=
  let params := params_of data in
  st <- get_state ;;
  match editedRow st with
  | Some r =>
      if negb (id (obj r) =? 0)
      then fetch_then
             {| url := "/api/admin/crud/energy_meter/" +:+ pretty (id (obj r));
                method := PUT; body := Some (JSON_stringify params) |}
             AfterUpdate
      else fetch_then
             {| url := "/api/admin/crud/energy_meter";
                method := POST; body := Some (JSON_stringify params) |}
             AfterSave
  | None =>
      fetch_then
        {| url := "/api/admin/crud/energy_meter";
           method := POST; body := Some (JSON_stringify params) |}
        AfterSave
  end.

(** [handleSubmit(onSubmit, onSubmitError)] *)
Definition handleSubmit : M State unit :=
  st <- get_state ;;
  match schema (formValues st) with
  | Some data => onSubmit data
  | None => onSubmitError
  end.

(** The body of [useEffect(.., [editedRow, setValue])]. *)
Definition editedRowEffect : M State unit :=
  st <- get_state ;;
  match editedRow st with
  | Some r =>
      if negb (id (obj r) =? 0)
      then (setValue_asset_name (asset_name (obj r)) ;;
            setValue_ip_address (ip_address (obj r)) ;;
            setValue_port (Some (port (obj r))) ;;
            setValue_time_zone (time_zone (obj r)) ;;
            setValue_enabled (if enabled (obj r) then true else false))
      else (setValue_asset_name "" ;;
            setValue_ip_address "" ;;
            setValue_port (Some 50003) ;;
            setValue_time_zone defaultTimeZone ;;
            setValue_enabled false)
  | None =>
      setValue_asset_name "" ;;
      setValue_ip_address "" ;;
      setValue_port (Some 50003) ;;
      setValue_time_zone defaultTimeZone ;;
      setValue_enabled false
  end.

(** React runs the effect after a render in which [editedRow] is not the
    object it was at the previous render. *)
Definition afterRender (previous : option (Ref EnergyMeterValues)) : M State unit :=
  st <- get_state ;;
  if Object_is previous (editedRow st) then ret tt else editedRowEffect.

Definition deleteSelectedRow : M State unit :=
  st <- get_state ;;
  match selectedRow st with
  | Some r =>
      fetch_then
        {| url := "/api/admin/crud/energy_meter/" +:+ pretty (id (obj r));
           method := DELETE;
           body := Some (JSON_stringify (VObj {[ "action" := VStr "delete" ]})) |}
        AfterDelete
  | None => ret tt
  end.

(** The callbacks.  [.catch] receives what the fetch or [response.json()]
    rejected with. *)
Definition resume (k : Continuation) (o : Outcome) : M State unit :=
  match k, o with
  | AfterUpdate, Resolved data =>
      updatePage ;; setVisible false ;;
      show success (VStr ("Updated energymeter: " +:+ JSON_stringify data))
  | AfterSave, Resolved data =>
      updatePage ;; setVisible false ;;
      show success (VStr ("Saved energymeter: " +:+ JSON_stringify data))
  | AfterDelete, Resolved data =>
      show success (VStr ("Deleted energy_meter: " +:+ JSON_stringify data)) ;;
      updatePage
  | _, Rejected err => show error err
  end.

(** The [i]-th request in flight settles. *)
Definition settle (i : nat) (o : Outcome) : M State unit :=
  st <- get_state ;;
  match pending st !! i with
  | Some k => setPending (delete i (pending st)) ;; resume k o
  | None => ret tt
  end.

(** What the user and the network can do to the page. *)
Inductive Event :=
  | Page (event : DataTableStateEvent)
  | Filter (event : DataTableStateEvent)
  | SelectionChange (value : option (Ref EnergyMeterValues))
  | ClickNew
  | ClickModify
  | ClickDelete
  | HideDialog
  | ConfirmAccept
  | ConfirmHide
  | ChangeAssetName (v : string)
  | ChangeIpAddress (v : string)
  | ChangePort (v : option Z)
  | ChangeTimeZone (v : string)
  | ChangeEnabled (v : bool)
  | Submit
  | ClickExport
  | Settle (i : nat) (o : Outcome).

(** One event, through the handler the rendered page binds to it.  A
    control that is disabled or not rendered takes no event.  The CSV
    button calls the table's own [exportCSV], which touches neither the
    state nor the network. *)
Definition handle (ev : Event) : M State unit :=
  st <- get_state ;;
  match ev with
  | Page event => onPage event
  | Filter event => onFilter event
  | SelectionChange value => onSelectionChange value
  | ClickNew =>
      setSelectedRow None ;; setEditedRow None ;; setVisible true ;;
      afterRender (editedRow st)
  | ClickModify =>
      if button_disabled st then ret tt
      else (setEditedRow (selectedRow st) ;;
            setValue_time_zone defaultTimeZone ;;
            setVisible true ;;
            afterRender (editedRow st))
  | ClickDelete =>
      if button_disabled st then ret tt else setConfirmDialogVisible true
  | HideDialog =>
      if visible st then setVisible false else ret tt
  | ConfirmAccept =>
      if confirmDialogVisible st
      then (deleteSelectedRow ;; setConfirmDialogVisible false)
      else ret tt
  | ConfirmHide =>
      if confirmDialogVisible st then setConfirmDialogVisible false else ret tt
  | ChangeAssetName v =>
      if visible st then setValue_asset_name v else ret tt
  | ChangeIpAddress v =>
      if visible st && negb (ip_port_disabled st) then setValue_ip_address v else ret tt
  | ChangePort v =>
      if visible st && negb (ip_port_disabled st) then setValue_port v else ret tt
  | ChangeTimeZone v =>
      if visible st then setValue_time_zone v else ret tt
  | ChangeEnabled v =>
      if visible st then setValue_enabled (if v then true else false) else ret tt
  | Submit => if visible st then handleSubmit else ret tt
  | ClickExport => ret tt
  | Settle i o => settle i o
  end.

(** The page after its first render and first effect. *)
Definition mounted : State :=
  {| lazyState := initialLazyState; editedRow := None; selectedRow := None;
     visible := false; confirmDialogVisible := false;
     formValues := {| f_asset_name := ""; f_ip_address := ""; f_port := Some 50003;
                      f_time_zone := defaultTimeZone; f_enabled := false |};
     toast_current := true;
     pending := [] |}.

(** A run of the page: the state it ends in and the trace it leaves. *)
Fixpoint run (evs : list Event) (st : State) : State * list Effect :=
  match evs with
  | [] => (st, [])
  | ev :: evs =>
      let '(st', t) := run evs (exec (handle ev) st) in
      (st', trace (handle ev) st ++ t)
  end.

End WithPlatform.

End EnergyMeter.


(** ** Auxiliary definitions of the statements *)

(** The shape [dddd-dd-dd]. *)
Definition is_digit (c : ascii) : bool :=
  let n := nat_of_ascii c in (48 <=? n)%nat && (n <=? 57)%nat.

Definition is_YYYY_MM_DD (s : string) : bool :=
  match String.list_ascii_of_string s with
  | [y1; y2; y3; y4; s1; m1; m2; s2; d1; d2] =>
      forallb is_digit [y1; y2; y3; y4; m1; m2; d1; d2]
      && Ascii.eqb s1 "-" && Ascii.eqb s2 "-"
  | _ => false
  end.

(** A calendar date with a four-digit year. *)
Definition valid_date (d : Home.Date) : Prop :=
  0 ≤ Home.year d ≤ 9999 ∧ 1 ≤ Home.month d ≤ 12 ∧ 1 ≤ Home.day d ≤ 31.

(** [s] is [n] decimal digits. *)
Definition digits (n : nat) (s : string) : bool :=
  (String.length s =? n)%nat && forallb is_digit (String.list_ascii_of_string s).

(** The number of times the confirm dialog was accepted in a run. *)
Definition Channels_accepts (evs : list Channels.Event) : nat :=
  length (List.filter (λ ev, match ev with Channels.ConfirmAccept => true | _ => false end) evs).

Definition EnergyMeter_accepts (evs : list EnergyMeter.Event) : nat :=
  length (List.filter (λ ev, match ev with EnergyMeter.ConfirmAccept => true | _ => false end) evs).

(** A platform to run the pages on in examples: a printer that tells the
    kinds of values apart, the identity encoding, one known address. *)
Definition example_platform : Platform :=
  {| JSON_stringify := λ v,
       match v with
       | VUndefined => "undefined" | VNull => "null"
       | VBool b => if b then "true" else "false"
       | VNum n => pretty n
       | VStr s => s
       | VArr _ => "[..]" | VObj _ => "{..}"
       end;
     encodeURIComponent := λ s, s;
     is_ipv4 := λ s, String.eqb s "192.168.1.237";
     defaultTimeZone := "Europe/Budapest" |}.

(** [a] is [b] except, possibly, for [first]. *)
Definition same_but_first (a b : DataTableStateEvent) : Prop :=
  rows a = rows b ∧ page a = page b ∧ pageCount a = pageCount b
  ∧ sortField a = sortField b ∧ sortOrder a = sortOrder b
  ∧ multiSortMeta a = multiSortMeta b ∧ filters a = filters b.

(** The test of the join in the channels query:
    [energyMeter.id === element.energy_meter_id]. *)
Definition matches (element energyMeter : Obj) : bool :=
  strict_eq (get energyMeter "id") (get element "energy_meter_id").

(** The number of DELETE requests in a trace, and handlers that send none. *)
Definition deletes (t : list Effect) : nat :=
  length (List.filter is_delete (requests t)).

Definition quiet {S A} (m : M S A) : Prop :=
  ∀ s, deletes (trace m s) = 0%nat.

(** A handler that, run from [s], leaves a view of the state as it was. *)
Definition keeps_at {S A V} (view : S → V) (m : M S A) (s : S) : Prop :=
  view (exec m s) = view s.

(** The part of the energy meter page the edit form's guarantee is about. *)
Definition edit_view (st : EnergyMeter.State)
    : option (Ref EnergyMeter.EnergyMeterValues) * string * option Z :=
  (EnergyMeter.editedRow st,
   EnergyMeter.f_ip_address (EnergyMeter.formValues st),
   EnergyMeter.f_port (EnergyMeter.formValues st)).

(** The row being edited carries an id, and while the page locks the two
    inputs ([id > -1]) they hold the row's own address and port. *)
Definition edit_form_bound (st : EnergyMeter.State) : Prop :=
  ∀ row, EnergyMeter.editedRow st = Some row →
    EnergyMeter.id (obj row) ≠ 0
    ∧ (-1 < EnergyMeter.id (obj row) →
       EnergyMeter.f_ip_address (EnergyMeter.formValues st) = EnergyMeter.ip_address (obj row)
       ∧ EnergyMeter.f_port (EnergyMeter.formValues st) = Some (EnergyMeter.port (obj row))).

(** ** Example data *)

Definition home_form : Home.FormState :=
  {| Home.f_fromDate := Some (Home.mkDate 2023 3 7);
     Home.f_toDate := Some (Home.mkDate 2023 4 1);
     Home.f_ipAddress := Some "192.168.1.237";
     Home.f_channel := Some (Some (-1));
     Home.f_details := Some "daily" |}.

Definition home_data : Home.FormValues :=
  {| Home.fromDate := Home.mkDate 2023 3 7; Home.toDate := Home.mkDate 2023 4 1;
     Home.ipAddress := "192.168.1.237"; Home.channel := Some (-1);
     Home.details := "daily" |}.

Definition home_data_channel_3 : Home.FormValues :=
  {| Home.fromDate := Home.mkDate 2026 3 7; Home.toDate := Home.mkDate 2026 4 1;
     Home.ipAddress := "192.168.1.237"; Home.channel := Some 3;
     Home.details := "hourly" |}.

Definition meter_7 : Ref EnergyMeter.EnergyMeterValues :=
  {| oid := 100;
     obj := {| EnergyMeter.id := 7; EnergyMeter.asset_name := "Boiler room";
               EnergyMeter.ip_address := "192.168.1.237"; EnergyMeter.port := 50003;
               EnergyMeter.time_zone := "Europe/Budapest"; EnergyMeter.enabled := true |} |}.

Definition meter_7_edit : list EnergyMeter.Event :=
  [ EnergyMeter.SelectionChange (Some meter_7); EnergyMeter.ClickModify;
    EnergyMeter.ChangeIpAddress "10.0.0.1"; EnergyMeter.ChangePort (Some 1);
    EnergyMeter.ChangeAssetName "Boiler room 2" ].

Definition meter_new : list EnergyMeter.Event :=
  [ EnergyMeter.ClickNew; EnergyMeter.ChangeAssetName "Pump house";
    EnergyMeter.ChangeIpAddress "192.168.1.237" ].

Definition channel_new : list Channels.Event :=
  [ Channels.ClickNew; Channels.ChangeEnergyMeter 7; Channels.ChangeChannelName "L1" ].

Definition channel_rows : list Obj :=
  [ {[ "id" := VNum 1; "energy_meter_id" := VNum 7; "channel" := VNum 1;
       "channel_name" := VStr "L1"; "enabled" := VNum 1 ]};
    {[ "id" := VNum 2; "energy_meter_id" := VNum 9; "channel" := VNum 2;
       "channel_name" := VStr "L2"; "enabled" := VNum 0 ]} ].

Definition meter_rows : list Obj :=
  [ {[ "id" := VNum 7; "asset_name" := VStr "Boiler room"; "enabled" := VNum 1 ]} ].

(** ** Further definitions of the statements *)


(** A handler that sends no request of the kind [p], from any state. *)
Definition sends_no {S A} (p : Request → bool) (m : M S A) : Prop :=
  ∀ s, List.filter p (requests (trace m s)) = [].



(** The forms a fresh dialog starts from. *)
Definition Channels_blank_form : Channels.FormState :=
  {| Channels.f_energy_meter_id := -1; Channels.f_channel := Some 1;
     Channels.f_channel_name := ""; Channels.f_enabled := false |}.

Definition EnergyMeter_blank_form `{Platform} : EnergyMeter.FormState :=
  {| EnergyMeter.f_asset_name := ""; EnergyMeter.f_ip_address := "";
     EnergyMeter.f_port := Some 50003; EnergyMeter.f_time_zone := defaultTimeZone;
     EnergyMeter.f_enabled := false |}.

(** The forms that show a row. *)
Definition Channels_form_of (r : Channels.ChannelValues) : Channels.FormState :=
  {| Channels.f_energy_meter_id := Channels.energy_meter_id r;
     Channels.f_channel := Some (Channels.channel r);
     Channels.f_channel_name := Channels.channel_name r;
     Channels.f_enabled := Channels.enabled r |}.

Definition EnergyMeter_form_of (r : EnergyMeter.EnergyMeterValues) : EnergyMeter.FormState :=
  {| EnergyMeter.f_asset_name := EnergyMeter.asset_name r;
     EnergyMeter.f_ip_address := EnergyMeter.ip_address r;
     EnergyMeter.f_port := Some (EnergyMeter.port r);
     EnergyMeter.f_time_zone := EnergyMeter.time_zone r;
     EnergyMeter.f_enabled := EnergyMeter.enabled r |}.

(** [s] without its leading zeros. *)
Fixpoint strip_zeros (s : string) : string :=
  match s with
  | String c t => if Ascii.eqb c "0" then strip_zeros t else s
  | EmptyString => s
  end.

Definition meter_9 : Ref EnergyMeter.EnergyMeterValues :=
  {| oid := 101;
     obj := {| EnergyMeter.id := 9; EnergyMeter.asset_name := "Pump house";
               EnergyMeter.ip_address := "192.168.1.238"; EnergyMeter.port := 50003;
               EnergyMeter.time_zone := "Europe/London"; EnergyMeter.enabled := false |} |}.

Definition channel_3 : Ref Channels.ChannelValues :=
  {| oid := 200;
     obj := {| Channels.id := 3; Channels.energy_meter_id := 7; Channels.channel := 2;
               Channels.channel_name := "L2"; Channels.enabled := true |} |}.

(** * Proofs *)

(** ** The monad *)

Ltac run_handler :=
  unfold trace, exec, bind, get_state, modify, emit, ret; cbn.

Lemma trace_bind {S A B} (m : M S A) (k : A → M S B) s :
  trace (bind m k) s = trace m s ++ trace (k (m s).1.1) (exec m s).
Proof.
  unfold trace, exec, bind. destruct (m s) as [[a s1] t1]. cbn.
  by destruct (k a s1) as [[b s2] t2].
Qed.

Lemma exec_bind {S A B} (m : M S A) (k : A → M S B) s :
  exec (bind m k) s = exec (k (m s).1.1) (exec m s).
Proof.
  unfold exec, bind. destruct (m s) as [[a s1] t1]. cbn.
  by destruct (k a s1) as [[b s2] t2].
Qed.

Lemma requests_app t1 t2 : requests (t1 ++ t2) = requests t1 ++ requests t2.
Proof. unfold requests. apply omap_app. Qed.

Lemma deletes_app t1 t2 : deletes (t1 ++ t2) = (deletes t1 + deletes t2)%nat.
Proof. unfold deletes. by rewrite requests_app, List.filter_app, length_app. Qed.

Lemma deletes_zero_no_delete t r :
  deletes t = 0%nat → r ∈ requests t → is_delete r = false.
Proof.
  unfold deletes. intros Hz Hr. destruct (is_delete r) eqn:Hd; [|done].
  apply length_zero_iff_nil in Hz.
  assert (In r (List.filter is_delete (requests t))) as Hin
    by (apply filter_In; split; [by apply list_elem_of_In | done]).
  rewrite Hz in Hin. destruct Hin.
Qed.

(** Handlers that send no DELETE, part by part. *)

Lemma quiet_ret {S A} (a : A) : quiet (ret (S := S) a).
Proof. done. Qed.

Lemma quiet_get_state {S} : quiet (get_state (S := S)).
Proof. done. Qed.

Lemma quiet_modify {S} (f : S → S) : quiet (modify f).
Proof. done. Qed.

Lemma quiet_toast {S} m : quiet (emit (S := S) (ToastShow m)).
Proof. done. Qed.

Lemma quiet_invalidate {S} k : quiet (emit (S := S) (InvalidateQueries k)).
Proof. done. Qed.

Lemma quiet_fetch {S} r : is_delete r = false → quiet (emit (S := S) (Fetch r)).
Proof. intros Hr s. unfold deletes. cbn. by rewrite Hr. Qed.

Lemma quiet_bind {S A B} (m : M S A) (k : A → M S B) :
  quiet m → (∀ a, quiet (k a)) → quiet (bind m k).
Proof. intros Hm Hk s. by rewrite trace_bind, deletes_app, Hm, Hk. Qed.

Create HintDb quiet.
#[local] Hint Resolve quiet_ret quiet_get_state quiet_modify quiet_toast
  quiet_invalidate quiet_fetch quiet_bind : quiet.
#[local] Hint Extern 1 (is_delete _ = false) => reflexivity : quiet.
#[local] Hint Extern 3 (quiet (if ?b then _ else _)) => destruct b : quiet.
#[local] Hint Extern 3 (quiet (match ?x with _ => _ end)) => destruct x : quiet.

(** Handlers that leave a view of the state alone, part by part. *)

Section Frame.
Context {S V : Type} (view : S → V).

Lemma keeps_ret {A} (a : A) s : keeps_at view (ret a) s.
Proof. done. Qed.

Lemma keeps_emit e s : keeps_at view (emit e) s.
Proof. done. Qed.

Lemma keeps_modify (f : S → S) s : view (f s) = view s → keeps_at view (modify f) s.
Proof. done. Qed.

Lemma keeps_get_bind {B} (k : S → M S B) s :
  keeps_at view (k s) s → keeps_at view (bind get_state k) s.
Proof. unfold keeps_at. by rewrite exec_bind. Qed.

Lemma keeps_bind {A B} (m : M S A) (k : A → M S B) s :
  keeps_at view m s → (∀ a, keeps_at view (k a) (exec m s)) → keeps_at view (bind m k) s.
Proof. unfold keeps_at. intros Hm Hk. by rewrite exec_bind, Hk. Qed.

End Frame.

Create HintDb frame.
#[local] Hint Resolve keeps_ret keeps_emit keeps_modify : frame.
#[local] Hint Resolve keeps_get_bind | 1 : frame.
#[local] Hint Resolve keeps_bind | 2 : frame.
#[local] Hint Extern 1 (_ = _) => reflexivity : frame.
#[local] Hint Extern 3 (keeps_at _ (if ?b then _ else _) _) => destruct b : frame.
#[local] Hint Extern 3 (keeps_at _ (match ?x with _ => _ end) _) => destruct x : frame.

Create HintDb handlers.
#[local] Hint Unfold Channels.setValue_energy_meter_id Channels.setValue_channel
  Channels.setValue_channel_name Channels.setValue_enabled
  Channels.setLazyState Channels.setEditedRow Channels.setSelectedRow
  Channels.setVisible Channels.setConfirmDialogVisible Channels.setEnergy_meterValues
  Channels.setFormValues Channels.setPending Channels.fetch_then Channels.onPage
  Channels.onFilter Channels.onSelectionChange Channels.updatePage Channels.show
  Channels.onSubmitError Channels.onSubmit Channels.handleSubmit
  Channels.fetchEnergy_meterValues Channels.editedRowEffect Channels.afterRender
  Channels.exportCSV Channels.resume Channels.settle Channels.deleteSelectedRow : handlers.
#[local] Hint Unfold EnergyMeter.setLazyState EnergyMeter.setEditedRow
  EnergyMeter.setSelectedRow EnergyMeter.setVisible EnergyMeter.setConfirmDialogVisible
  EnergyMeter.setFormValues EnergyMeter.setPending EnergyMeter.setValue_asset_name
  EnergyMeter.setValue_ip_address EnergyMeter.setValue_port EnergyMeter.setValue_time_zone
  EnergyMeter.setValue_enabled EnergyMeter.fetch_then EnergyMeter.onPage
  EnergyMeter.onFilter EnergyMeter.onSelectionChange EnergyMeter.updatePage
  EnergyMeter.show EnergyMeter.onSubmitError EnergyMeter.onSubmit EnergyMeter.handleSubmit
  EnergyMeter.editedRowEffect EnergyMeter.afterRender EnergyMeter.resume
  EnergyMeter.settle EnergyMeter.deleteSelectedRow : handlers.

Ltac quiet_by_parts := autounfold with handlers; auto 40 with quiet.
Ltac kept_by_parts := autounfold with handlers; auto 40 with frame.

(** ** The report page *)

Section HomeFacts.
Context `{Platform}.

Lemma show_attached sev message st :
  Home.toast_current st = true →
  Home.show sev message st
  = (tt, st, [ToastShow {| severity := sev; summary := "Form submit"; detail := message |}]).
Proof. intros Hst. unfold Home.show, bind, get_state, emit. by rewrite Hst. Qed.

Lemma zeroFill_year y : 0 ≤ y ≤ 9999 → digits 4 (Home.zeroFill y 4) = true.
Proof.
  intros Hy.
  assert (Hall : forallb (λ y, digits 4 (Home.zeroFill y 4)) (seqZ 0 10000) = true)
    by (vm_compute; reflexivity).
  rewrite forallb_forall in Hall. apply Hall.
  apply list_elem_of_In, elem_of_seqZ. lia.
Qed.

Lemma zeroFill_two n : 0 ≤ n ≤ 99 → digits 2 (Home.zeroFill n 2) = true.
Proof.
  intros Hn.
  assert (Hall : forallb (λ n, digits 2 (Home.zeroFill n 2)) (seqZ 0 100) = true)
    by (vm_compute; reflexivity).
  rewrite forallb_forall in Hall. apply Hall.
  apply list_elem_of_In, elem_of_seqZ. lia.
Qed.

Lemma digits_4_inv s :
  digits 4 s = true →
  ∃ a b c d, s = String a (String b (String c (String d "")))
             ∧ forallb is_digit [a; b; c; d] = true.
Proof.
  destruct s as [|a [|b [|c [|d [|? ?]]]]]; try discriminate.
  intros Hs. apply andb_prop in Hs as [_ Hs]. by exists a, b, c, d.
Qed.

Lemma digits_2_inv s :
  digits 2 s = true →
  ∃ a b, s = String a (String b "") ∧ forallb is_digit [a; b] = true.
Proof.
  destruct s as [|a [|b [|? ?]]]; try discriminate.
  intros Hs. apply andb_prop in Hs as [_ Hs]. by exists a, b.
Qed.

Lemma format_shape d : valid_date d → is_YYYY_MM_DD (Home.format_YYYY_MM_DD d) = true.
Proof.
  intros (Hy & Hm & Hd). unfold Home.format_YYYY_MM_DD.
  destruct (digits_4_inv _ (zeroFill_year (Home.year d) Hy)) as (y1 & y2 & y3 & y4 & -> & Y).
  destruct (digits_2_inv _ (zeroFill_two (Home.month d) ltac:(lia))) as (m1 & m2 & -> & Mo).
  destruct (digits_2_inv _ (zeroFill_two (Home.day d) ltac:(lia))) as (d1 & d2 & -> & D).
  unfold is_YYYY_MM_DD.
  remember is_digit as P. cbn in Y, Mo, D. cbv.
  destruct (P y1), (P y2), (P y3), (P y4); try discriminate Y.
  destruct (P m1), (P m2); try discriminate Mo.
  destruct (P d1), (P d2); try discriminate D.
  reflexivity.
Qed.

(** C1. A submission asking for a year before the current one at a
    granularity other than monthly is turned down in the browser: the error
    toast is shown and nothing is fetched.  Every other submission that
    passes the schema fetches the report, once; one that does not pass the
    schema is turned down with the other error toast, and fetches nothing
    either. *)
Theorem home_submit_year_rule (now_year : Z) (f : Home.FormState) (st : Home.State) :
  Home.toast_current st = true →
  let t := trace (Home.handleSubmit now_year f) st in
  (∀ data, Home.schema f = Some data →
     (Home.year (Home.fromDate data) < now_year ∧ Home.details data ≠ "monthly" →
        requests t = [] ∧
        toasts t = [ {| severity := error; summary := "Form submit";
                        detail := VStr "Details must be monthly when required year less then current year" |} ])
     ∧ (¬ (Home.year (Home.fromDate data) < now_year ∧ Home.details data ≠ "monthly") →
        requests t = [ {| url := Home.report_path data; method := GET; body := None |} ]
        ∧ toasts t = []))
  ∧ (Home.schema f = None →
       requests t = [] ∧
       toasts t = [ {| severity := error; summary := "Form submit";
                       detail := VStr "Please fill form as needed. Read tooltips on red marked fields." |} ]).
Proof.
  intros Hst t. subst t. unfold Home.handleSubmit. split.
  - intros data ->. unfold Home.onSubmit, trace.
    destruct (Z.ltb_spec (Home.year (Home.fromDate data)) now_year) as [Hlt|Hge];
      destruct (String.eqb_spec (Home.details data) "monthly") as [Heq|Hne]; cbn [andb negb];
      try rewrite (show_attached _ _ _ Hst); cbn; split; intros Hc; try done;
      try (exfalso; apply Hc; done); try (destruct Hc; done || lia).
  - intros ->. unfold Home.onSubmitError, trace. by rewrite (show_attached _ _ _ Hst).
Qed.

(** C5. When the body of the report response reads a truthy [err], that value
    is shown in an error toast and the table is emptied; when it reads a
    falsy [err] (or none), the table shows the body. *)
Theorem home_report_response (values err : Value) (st : Home.State) :
  Home.toast_current st = true →
  getProp values "err" = Some err →
  let m := Home.updateTable_resume (Resolved values) in
  (truthy err = true →
     toasts (trace m st) = [ {| severity := error; summary := "Form submit"; detail := err |} ]
     ∧ Home.measurements (exec m st) = VArr [])
  ∧ (truthy err = false →
     toasts (trace m st) = [] ∧ Home.measurements (exec m st) = values).
Proof.
  intros Hst Herr m. subst m. unfold Home.updateTable_resume. rewrite Herr.
  split; intros ->.
  - unfold trace, exec, bind. rewrite (show_attached _ _ _ Hst). done.
  - done.
Qed.

(** C6. An accepted submission fetches [/api/measurements/report] with
    [fromdate], [todate], [ip] and [details], in this order; [&channel=] and
    the channel follow exactly when the selected channel is greater than 0,
    so neither the option All (-1) nor an empty selection adds it.  Dates
    with a four-digit year come out as [dddd-dd-dd]. *)
Theorem home_report_url (now_year : Z) (data : Home.FormValues) (st : Home.State) :
  ¬ (Home.year (Home.fromDate data) < now_year ∧ Home.details data ≠ "monthly") →
  let base :=
    "/api/measurements/report?fromdate=" +:+ Home.format_YYYY_MM_DD (Home.fromDate data)
      +:+ "&todate=" +:+ Home.format_YYYY_MM_DD (Home.toDate data)
      +:+ "&ip=" +:+ Home.ipAddress data
      +:+ "&details=" +:+ Home.details data in
  (∃ u, requests (trace (Home.onSubmit now_year data) st)
          = [ {| url := u; method := GET; body := None |} ]
        ∧ (∀ c, Home.channel data = Some c → 0 < c → u = base +:+ "&channel=" +:+ pretty c)
        ∧ ((∀ c, Home.channel data = Some c → c ≤ 0) → u = base))
  ∧ (Home.channel data = Some (-1) → Home.report_path data = base)
  ∧ (valid_date (Home.fromDate data) →
       is_YYYY_MM_DD (Home.format_YYYY_MM_DD (Home.fromDate data)) = true)
  ∧ (valid_date (Home.toDate data) →
       is_YYYY_MM_DD (Home.format_YYYY_MM_DD (Home.toDate data)) = true).
Proof.
  intros Hacc base. split; [|split; [|split; apply format_shape]].
  - exists (Home.report_path data). split; [|split].
    + unfold Home.onSubmit.
      destruct (Z.ltb_spec (Home.year (Home.fromDate data)) now_year) as [Hlt|Hge];
        destruct (String.eqb_spec (Home.details data) "monthly") as [Heq|Hne];
        cbn [andb negb]; try done.
      exfalso. by apply Hacc.
    + intros c Hc Hpos. unfold Home.report_path. rewrite Hc.
      destruct (Z.ltb_spec 0 c); [done | lia].
    + intros Hno. unfold Home.report_path.
      destruct (Home.channel data) as [c|]; [|done].
      specialize (Hno c eq_refl). destruct (Z.ltb_spec 0 c); [lia | done].
  - intros Hc. unfold Home.report_path. by rewrite Hc.
Qed.

End HomeFacts.

Lemma home_submit_year_rule_witness :
  Home.toast_current Home.mounted = true
  ∧ @Home.schema example_platform home_form = Some home_data
  ∧ requests (trace (@Home.handleSubmit example_platform 2026 home_form) Home.mounted) = [].
Proof.
  split; [reflexivity | split; [reflexivity |]].
  apply (proj1 (@home_submit_year_rule example_platform 2026 home_form Home.mounted eq_refl)
           home_data eq_refl).
  split; [reflexivity | discriminate].
Defined.

Lemma home_report_response_witness :
  Home.toast_current Home.mounted = true
  ∧ getProp (VObj {[ "err" := VStr "No data" ]}) "err" = Some (VStr "No data")
  ∧ Home.measurements
      (exec (Home.updateTable_resume (Resolved (VObj {[ "err" := VStr "No data" ]})))
            Home.mounted) = VArr [].
Proof.
  split; [reflexivity | split; [reflexivity |]].
  apply (home_report_response (VObj {[ "err" := VStr "No data" ]}) (VStr "No data")
           Home.mounted); reflexivity.
Defined.

Lemma home_report_url_witness :
  ¬ (Home.year (Home.fromDate home_data_channel_3) < 2026
     ∧ Home.details home_data_channel_3 ≠ "monthly")
  ∧ ∃ u, requests (trace (Home.onSubmit 2026 home_data_channel_3) Home.mounted)
         = [ {| url := u; method := GET; body := None |} ]
       ∧ u = "/api/measurements/report?fromdate=2026-03-07&todate=2026-04-01&ip=192.168.1.237&details=hourly&channel=3".
Proof.
  assert (Hacc : ¬ (Home.year (Home.fromDate home_data_channel_3) < 2026
                    ∧ Home.details home_data_channel_3 ≠ "monthly"))
    by (cbn; lia).
  split; [exact Hacc |].
  destruct (home_report_url 2026 home_data_channel_3 Home.mounted Hacc)
    as [(u & Hreq & Hpos & _) _].
  exists u. split; [exact Hreq |].
  rewrite (Hpos 3 eq_refl ltac:(lia)). reflexivity.
Defined.

(** ** The list queries *)

Lemma truthy_normal (v : Value) : (if truthy v then true else false) = truthy v.
Proof. by destruct (truthy v). Qed.

Lemma filter_head_find {A} (p : A → bool) (l : list A) :
  head (List.filter p l) = List.find p l.
Proof. induction l as [|a l IH]; [done|]. cbn. by destruct (p a). Qed.

Lemma channels_queryFn_lookup values meters (i : nat) :
  Channels.queryFn values meters !! i = Channels.queryFn_element meters <$> values !! i.
Proof. unfold Channels.queryFn. apply list_lookup_fmap. Qed.

Lemma channels_element_enabled meters element :
  Channels.queryFn_element meters element !! "enabled"
  = Some (VBool (truthy (get element "enabled"))).
Proof.
  unfold Channels.queryFn_element. rewrite lookup_insert_eq, truthy_normal.
  destruct (List.filter _ meters); [done|].
  unfold get. by rewrite lookup_insert_ne.
Qed.

Lemma channels_element_asset_name meters element :
  Channels.queryFn_element meters element !! "assset_name"
  = match List.find (matches element) meters with
    | Some m => Some (get m "asset_name")
    | None => element !! "assset_name"
    end.
Proof.
  unfold Channels.queryFn_element. rewrite lookup_insert_ne by done.
  rewrite <- filter_head_find. fold (matches element).
  destruct (List.filter (matches element) meters); cbn; [done|].
  by rewrite lookup_insert_eq.
Qed.

(** C8. The channels query fetches the page of channels and then the whole
    energy meter collection.  A row whose [energy_meter_id] is the [id] of a
    fetched energy meter leaves the query with [assset_name] set to the
    [asset_name] of such a meter, the first in the collection; a row that no
    meter matches keeps whatever [assset_name] it came with, none if it had
    none. *)
Theorem queryFn_joins_asset_name `{Platform} (lazyState : DataTableStateEvent)
    (values meters : list Obj) (i : nat) (element : Obj) :
  values !! i = Some element →
  (∃ page_url, Channels.queryFn_fetches lazyState
               = [ {| url := page_url; method := GET; body := None |};
                   {| url := "/api/admin/crud/energy_meter"; method := GET; body := None |} ])
  ∧ ∃ row, Channels.queryFn values meters !! i = Some row
    ∧ (∀ m, List.find (matches element) meters = Some m →
         row !! "assset_name" = Some (get m "asset_name"))
    ∧ ((∃ m, m ∈ meters ∧ strict_eq (get m "id") (get element "energy_meter_id") = true) →
       ∃ m, m ∈ meters ∧ strict_eq (get m "id") (get element "energy_meter_id") = true
            ∧ row !! "assset_name" = Some (get m "asset_name"))
    ∧ ((∀ m, m ∈ meters → strict_eq (get m "id") (get element "energy_meter_id") = false) →
       row !! "assset_name" = element !! "assset_name").
Proof.
  intros Hi. split; [by eexists|].
  exists (Channels.queryFn_element meters element).
  rewrite channels_queryFn_lookup, Hi. split; [done|].
  rewrite channels_element_asset_name. split; [|split].
  - by intros m ->.
  - intros (m & Hm & Heq).
    destruct (List.find (matches element) meters) as [m'|] eqn:Hfind.
    + apply find_some in Hfind as [Hin Hmatch]. exists m'.
      split; [by apply list_elem_of_In | done].
    + apply find_none with (x := m) in Hfind; [|by apply list_elem_of_In].
      unfold matches in Hfind. congruence.
  - intros Hnone.
    destruct (List.find (matches element) meters) as [m'|] eqn:Hfind; [|done].
    apply find_some in Hfind as [Hin Hmatch].
    apply list_elem_of_In, Hnone in Hin. unfold matches in Hmatch. congruence.
Qed.

(** C9. Every row that the channels query or the energy meter query hands to
    its table has [enabled] set to a boolean: [true] when the fetched value
    was truthy, [false] when it was not. *)
Theorem queryFn_enabled_boolean (values meters valuesE : list Obj) (i j : nat)
    (element elementE : Obj) :
  values !! i = Some element →
  valuesE !! j = Some elementE →
  (∃ row, Channels.queryFn values meters !! i = Some row
          ∧ row !! "enabled" = Some (VBool (truthy (get element "enabled"))))
  ∧ (∃ row, EnergyMeter.queryFn valuesE !! j = Some row
            ∧ row !! "enabled" = Some (VBool (truthy (get elementE "enabled")))).
Proof.
  intros Hi Hj. split.
  - exists (Channels.queryFn_element meters element).
    rewrite channels_queryFn_lookup, Hi. split; [done | apply channels_element_enabled].
  - exists (EnergyMeter.queryFn_element elementE). unfold EnergyMeter.queryFn.
    rewrite list_lookup_fmap, Hj. split; [done|].
    unfold EnergyMeter.queryFn_element. by rewrite lookup_insert_eq, truthy_normal.
Qed.

Lemma queryFn_joins_asset_name_witness :
  ∃ element, channel_rows !! 0%nat = Some element
    ∧ ∃ row, Channels.queryFn channel_rows meter_rows !! 0%nat = Some row
        ∧ row !! "assset_name" = Some (VStr "Boiler room").
Proof.
  eexists. split; [reflexivity |].
  destruct (@queryFn_joins_asset_name example_platform initialLazyState
              channel_rows meter_rows 0 _ eq_refl)
    as (_ & row & Hrow & Hfirst & _).
  exists row. split; [exact Hrow |].
  rewrite (Hfirst {[ "id" := VNum 7; "asset_name" := VStr "Boiler room"; "enabled" := VNum 1 ]})
    by (vm_compute; reflexivity).
  vm_compute. reflexivity.
Defined.

Lemma queryFn_enabled_boolean_witness :
  ∃ element elementE, channel_rows !! 1%nat = Some element
    ∧ meter_rows !! 0%nat = Some elementE
    ∧ (∃ row, Channels.queryFn channel_rows meter_rows !! 1%nat = Some row
              ∧ row !! "enabled" = Some (VBool (truthy (get element "enabled"))))
    ∧ (∃ row, EnergyMeter.queryFn meter_rows !! 0%nat = Some row
              ∧ row !! "enabled" = Some (VBool (truthy (get elementE "enabled")))).
Proof.
  eexists _, _. split; [reflexivity | split; [reflexivity |]].
  apply (queryFn_enabled_boolean channel_rows meter_rows meter_rows 1 0); reflexivity.
Defined.

(** ** The two CRUD pages *)

Section CrudFacts.
Context `{Platform}.

(** C7. On both pages a filter event is stored with [first] set to 0 and
    everything else as the table sent it, and a page event is stored as the
    table sent it, [first] included. *)
Theorem table_state_change (event : DataTableStateEvent)
    (stC : Channels.State) (stE : EnergyMeter.State) :
  let filteredC := Channels.lazyState (exec (Channels.handle (Channels.Filter event)) stC) in
  let pagedC := Channels.lazyState (exec (Channels.handle (Channels.Page event)) stC) in
  let filteredE :=
    EnergyMeter.lazyState (exec (EnergyMeter.handle (EnergyMeter.Filter event)) stE) in
  let pagedE :=
    EnergyMeter.lazyState (exec (EnergyMeter.handle (EnergyMeter.Page event)) stE) in
  (first filteredC = 0 ∧ same_but_first filteredC event) ∧ pagedC = event
  ∧ (first filteredE = 0 ∧ same_but_first filteredE event) ∧ pagedE = event.
Proof. cbn. unfold same_but_first. cbn. done. Qed.

(** C10. With no row selected, [deleteSelectedRow] sends nothing and leaves
    the page state as it is, on both pages. *)
Theorem delete_without_selection (stC : Channels.State) (stE : EnergyMeter.State) :
  Channels.selectedRow stC = None →
  EnergyMeter.selectedRow stE = None →
  (trace Channels.deleteSelectedRow stC = [] ∧ exec Channels.deleteSelectedRow stC = stC)
  ∧ (trace EnergyMeter.deleteSelectedRow stE = []
     ∧ exec EnergyMeter.deleteSelectedRow stE = stE).
Proof.
  intros HC HE. unfold Channels.deleteSelectedRow, EnergyMeter.deleteSelectedRow.
  unfold trace, exec, bind, get_state. by rewrite HC, HE.
Qed.

(** *** DELETE goes out on accept only *)

Lemma channels_handle_quiet ev : ev ≠ Channels.ConfirmAccept → quiet (Channels.handle ev).
Proof. intros Hev. destruct ev; try done; unfold Channels.handle; quiet_by_parts. Qed.

Lemma energy_meter_handle_quiet ev :
  ev ≠ EnergyMeter.ConfirmAccept → quiet (EnergyMeter.handle ev).
Proof. intros Hev. destruct ev; try done; unfold EnergyMeter.handle; quiet_by_parts. Qed.

Lemma channels_accept_deletes st :
  (deletes (trace (Channels.handle Channels.ConfirmAccept) st)
   ≤ if Channels.confirmDialogVisible st then 1 else 0)%nat.
Proof.
  unfold Channels.handle, Channels.deleteSelectedRow. autounfold with handlers.
  unfold trace, bind, get_state, emit, modify, ret, deletes. cbn.
  destruct (Channels.confirmDialogVisible st); cbn; [|lia].
  destruct (Channels.selectedRow st); cbn; lia.
Qed.

Lemma energy_meter_accept_deletes st :
  (deletes (trace (EnergyMeter.handle EnergyMeter.ConfirmAccept) st)
   ≤ if EnergyMeter.confirmDialogVisible st then 1 else 0)%nat.
Proof.
  unfold EnergyMeter.handle, EnergyMeter.deleteSelectedRow. autounfold with handlers.
  unfold trace, bind, get_state, emit, modify, ret, deletes. cbn.
  destruct (EnergyMeter.confirmDialogVisible st); cbn; [|lia].
  destruct (EnergyMeter.selectedRow st); cbn; lia.
Qed.

Lemma channels_run_trace ev evs st :
  (Channels.run (ev :: evs) st).2
  = trace (Channels.handle ev) st ++ (Channels.run evs (exec (Channels.handle ev) st)).2.
Proof. cbn. by destruct (Channels.run evs _). Qed.

Lemma energy_meter_run_trace ev evs st :
  (EnergyMeter.run (ev :: evs) st).2
  = trace (EnergyMeter.handle ev) st
    ++ (EnergyMeter.run evs (exec (EnergyMeter.handle ev) st)).2.
Proof. cbn. by destruct (EnergyMeter.run evs _). Qed.

Lemma energy_meter_run_state ev evs st :
  (EnergyMeter.run (ev :: evs) st).1
  = (EnergyMeter.run evs (exec (EnergyMeter.handle ev) st)).1.
Proof. cbn. by destruct (EnergyMeter.run evs _). Qed.

Lemma channels_handle_deletes ev st :
  (deletes (trace (Channels.handle ev) st) ≤ Channels_accepts [ev])%nat.
Proof.
  destruct ev;
    first [ rewrite channels_handle_quiet by done; apply Nat.le_0_l
          | pose proof (channels_accept_deletes st) as Hacc;
            destruct (Channels.confirmDialogVisible st); cbn in *; lia ].
Qed.

Lemma energy_meter_handle_deletes ev st :
  (deletes (trace (EnergyMeter.handle ev) st) ≤ EnergyMeter_accepts [ev])%nat.
Proof.
  destruct ev;
    first [ rewrite energy_meter_handle_quiet by done; apply Nat.le_0_l
          | pose proof (energy_meter_accept_deletes st) as Hacc;
            destruct (EnergyMeter.confirmDialogVisible st); cbn in *; lia ].
Qed.

Lemma channels_run_deletes evs st :
  (deletes (Channels.run evs st).2 ≤ Channels_accepts evs)%nat.
Proof.
  revert st. induction evs as [|ev evs IH]; intros st; [done|].
  rewrite channels_run_trace, deletes_app.
  specialize (IH (exec (Channels.handle ev) st)).
  pose proof (channels_handle_deletes ev st) as Hev.
  change (ev :: evs) with ([ev] ++ evs).
  unfold Channels_accepts in *. rewrite List.filter_app, length_app. lia.
Qed.

Lemma energy_meter_run_deletes evs st :
  (deletes (EnergyMeter.run evs st).2 ≤ EnergyMeter_accepts evs)%nat.
Proof.
  revert st. induction evs as [|ev evs IH]; intros st; [done|].
  rewrite energy_meter_run_trace, deletes_app.
  specialize (IH (exec (EnergyMeter.handle ev) st)).
  pose proof (energy_meter_handle_deletes ev st) as Hev.
  change (ev :: evs) with ([ev] ++ evs).
  unfold EnergyMeter_accepts in *. rewrite List.filter_app, length_app. lia.
Qed.

(** C4. On both pages, an event whose handler sends a DELETE is the accept
    of the confirm dialog, taken while the dialog is shown; so a run of the
    page never holds more DELETE requests than accepts. *)
Theorem delete_only_on_accept :
  (∀ ev st r, r ∈ requests (trace (Channels.handle ev) st) → method r = DELETE →
     ev = Channels.ConfirmAccept ∧ Channels.confirmDialogVisible st = true)
  ∧ (∀ ev st r, r ∈ requests (trace (EnergyMeter.handle ev) st) → method r = DELETE →
     ev = EnergyMeter.ConfirmAccept ∧ EnergyMeter.confirmDialogVisible st = true)
  ∧ (∀ evs st, (length (List.filter is_delete (requests (Channels.run evs st).2))
                ≤ Channels_accepts evs)%nat)
  ∧ (∀ evs st, (length (List.filter is_delete (requests (EnergyMeter.run evs st).2))
                ≤ EnergyMeter_accepts evs)%nat).
Proof.
  split; [|split; [|split]].
  - intros ev st r Hr Hm.
    assert (is_delete r = true) as Hd by (unfold is_delete; by rewrite Hm).
    assert (deletes (trace (Channels.handle ev) st) ≠ 0%nat) as Hnz
      by (intros Hz; rewrite (deletes_zero_no_delete _ _ Hz Hr) in Hd; done).
    destruct ev; try (rewrite channels_handle_quiet in Hnz; done).
    split; [done|]. pose proof (channels_accept_deletes st) as Hacc.
    destruct (Channels.confirmDialogVisible st); [done | lia].
  - intros ev st r Hr Hm.
    assert (is_delete r = true) as Hd by (unfold is_delete; by rewrite Hm).
    assert (deletes (trace (EnergyMeter.handle ev) st) ≠ 0%nat) as Hnz
      by (intros Hz; rewrite (deletes_zero_no_delete _ _ Hz Hr) in Hd; done).
    destruct ev; try (rewrite energy_meter_handle_quiet in Hnz; done).
    split; [done|]. pose proof (energy_meter_accept_deletes st) as Hacc.
    destruct (EnergyMeter.confirmDialogVisible st); [done | lia].
  - apply channels_run_deletes.
  - apply energy_meter_run_deletes.
Qed.

(** *** Submitting the form *)

Lemma channels_onSubmit_requests data st :
  requests (trace (Channels.onSubmit data) st)
  = [ match Channels.editedRow st with
      | Some row =>
          if negb (Channels.id (obj row) =? 0)
          then {| url := "/api/admin/crud/channels/" +:+ pretty (Channels.id (obj row));
                  method := PUT; body := Some (JSON_stringify (Channels.params_of data)) |}
          else {| url := "/api/admin/crud/channels"; method := POST;
                  body := Some (JSON_stringify (Channels.params_of data)) |}
      | None => {| url := "/api/admin/crud/channels"; method := POST;
                   body := Some (JSON_stringify (Channels.params_of data)) |}
      end ].
Proof.
  unfold Channels.onSubmit, Channels.fetch_then, Channels.setPending. run_handler.
  destruct (Channels.editedRow st) as [row|]; [|done].
  by destruct (negb (Channels.id (obj row) =? 0)).
Qed.

Lemma channels_onSubmit_pending data st :
  Channels.pending (exec (Channels.onSubmit data) st)
  = Channels.pending st
    ++ [ match Channels.editedRow st with
         | Some row => if negb (Channels.id (obj row) =? 0)
                       then Channels.AfterUpdate else Channels.AfterSave
         | None => Channels.AfterSave
         end ].
Proof.
  unfold Channels.onSubmit, Channels.fetch_then, Channels.setPending. run_handler.
  destruct (Channels.editedRow st) as [row|]; [|done].
  by destruct (negb (Channels.id (obj row) =? 0)).
Qed.

Lemma channels_resume_success k data st :
  k = Channels.AfterUpdate ∨ k = Channels.AfterSave →
  let m := Channels.resume k (Resolved data) in
  requests (trace m st) = []
  ∧ invalidations (trace m st) = ["channels"; "channelscount"]
  ∧ Channels.selectedRow (exec m st) = None.
Proof.
  intros [-> | ->]; unfold Channels.resume, Channels.updatePage, Channels.show,
    Channels.setSelectedRow, Channels.setVisible; run_handler;
    by destruct (Channels.toast_current st).
Qed.

Lemma energy_meter_onSubmit_requests data st :
  requests (trace (EnergyMeter.onSubmit data) st)
  = [ match EnergyMeter.editedRow st with
      | Some row =>
          if negb (EnergyMeter.id (obj row) =? 0)
          then {| url := "/api/admin/crud/energy_meter/" +:+ pretty (EnergyMeter.id (obj row));
                  method := PUT; body := Some (JSON_stringify (EnergyMeter.params_of data)) |}
          else {| url := "/api/admin/crud/energy_meter"; method := POST;
                  body := Some (JSON_stringify (EnergyMeter.params_of data)) |}
      | None => {| url := "/api/admin/crud/energy_meter"; method := POST;
                   body := Some (JSON_stringify (EnergyMeter.params_of data)) |}
      end ].
Proof.
  unfold EnergyMeter.onSubmit, EnergyMeter.fetch_then, EnergyMeter.setPending. run_handler.
  destruct (EnergyMeter.editedRow st) as [row|]; [|done].
  by destruct (negb (EnergyMeter.id (obj row) =? 0)).
Qed.

Lemma energy_meter_onSubmit_pending data st :
  EnergyMeter.pending (exec (EnergyMeter.onSubmit data) st)
  = EnergyMeter.pending st
    ++ [ match EnergyMeter.editedRow st with
         | Some row => if negb (EnergyMeter.id (obj row) =? 0)
                       then EnergyMeter.AfterUpdate else EnergyMeter.AfterSave
         | None => EnergyMeter.AfterSave
         end ].
Proof.
  unfold EnergyMeter.onSubmit, EnergyMeter.fetch_then, EnergyMeter.setPending. run_handler.
  destruct (EnergyMeter.editedRow st) as [row|]; [|done].
  by destruct (negb (EnergyMeter.id (obj row) =? 0)).
Qed.

Lemma energy_meter_resume_success k data st :
  k = EnergyMeter.AfterUpdate ∨ k = EnergyMeter.AfterSave →
  let m := EnergyMeter.resume k (Resolved data) in
  requests (trace m st) = []
  ∧ invalidations (trace m st) = ["energy_meter"; "energy_metercount"]
  ∧ EnergyMeter.selectedRow (exec m st) = None.
Proof.
  intros [-> | ->]; unfold EnergyMeter.resume, EnergyMeter.updatePage, EnergyMeter.show,
    EnergyMeter.setSelectedRow, EnergyMeter.setVisible; run_handler;
    by destruct (EnergyMeter.toast_current st).
Qed.

Lemma channels_handleSubmit_valid st data :
  Channels.schema (Channels.formValues st) = Some data →
  Channels.handleSubmit st = Channels.onSubmit data st.
Proof.
  intros Hdata. unfold Channels.handleSubmit, bind, get_state. rewrite Hdata.
  by destruct (Channels.onSubmit data st) as [[[] ?] ?].
Qed.

Lemma energy_meter_handleSubmit_valid st data :
  EnergyMeter.schema (EnergyMeter.formValues st) = Some data →
  EnergyMeter.handleSubmit st = EnergyMeter.onSubmit data st.
Proof.
  intros Hdata. unfold EnergyMeter.handleSubmit, bind, get_state. rewrite Hdata.
  by destruct (EnergyMeter.onSubmit data st) as [[[] ?] ?].
Qed.

(** C3. On both pages, submitting a form that passes the schema sends one
    request and it is a mutation carrying the form data: a PUT to the
    resource of the edited row when there is an edited row with an id, a POST
    to the collection otherwise.  The callback it leaves behind, once the
    response has arrived, sends nothing more, invalidates the list query and
    the count query and clears the selection. *)
Theorem form_submission (stC : Channels.State) (dataC : Channels.FormValues)
    (stE : EnergyMeter.State) (dataE : EnergyMeter.FormValues) :
  Channels.schema (Channels.formValues stC) = Some dataC →
  EnergyMeter.schema (EnergyMeter.formValues stE) = Some dataE →
  (∃ r k,
     requests (trace Channels.handleSubmit stC) = [r]
     ∧ is_mutation r = true
     ∧ body r = Some (JSON_stringify (Channels.params_of dataC))
     ∧ (∀ row, Channels.editedRow stC = Some row → Channels.id (obj row) ≠ 0 →
          method r = PUT
          ∧ url r = "/api/admin/crud/channels/" +:+ pretty (Channels.id (obj row)))
     ∧ ((∀ row, Channels.editedRow stC = Some row → Channels.id (obj row) = 0) →
          method r = POST ∧ url r = "/api/admin/crud/channels")
     ∧ Channels.pending (exec Channels.handleSubmit stC) = Channels.pending stC ++ [k]
     ∧ ∀ data st,
         let m := Channels.resume k (Resolved data) in
         requests (trace m st) = []
         ∧ invalidations (trace m st) = ["channels"; "channelscount"]
         ∧ Channels.selectedRow (exec m st) = None)
  ∧ (∃ r k,
     requests (trace EnergyMeter.handleSubmit stE) = [r]
     ∧ is_mutation r = true
     ∧ body r = Some (JSON_stringify (EnergyMeter.params_of dataE))
     ∧ (∀ row, EnergyMeter.editedRow stE = Some row → EnergyMeter.id (obj row) ≠ 0 →
          method r = PUT
          ∧ url r = "/api/admin/crud/energy_meter/" +:+ pretty (EnergyMeter.id (obj row)))
     ∧ ((∀ row, EnergyMeter.editedRow stE = Some row → EnergyMeter.id (obj row) = 0) →
          method r = POST ∧ url r = "/api/admin/crud/energy_meter")
     ∧ EnergyMeter.pending (exec EnergyMeter.handleSubmit stE) = EnergyMeter.pending stE ++ [k]
     ∧ ∀ data st,
         let m := EnergyMeter.resume k (Resolved data) in
         requests (trace m st) = []
         ∧ invalidations (trace m st) = ["energy_meter"; "energy_metercount"]
         ∧ EnergyMeter.selectedRow (exec m st) = None).
Proof.
  intros HC HE. split.
  - eexists _, _. unfold trace, exec.
    rewrite (channels_handleSubmit_valid _ _ HC).
    split; [apply channels_onSubmit_requests|].
    split; [|split; [|split; [|split; [|split; [apply channels_onSubmit_pending|]]]]].
    + destruct (Channels.editedRow stC) as [row|]; [|done].
      by destruct (negb (Channels.id (obj row) =? 0)).
    + destruct (Channels.editedRow stC) as [row|]; [|done].
      by destruct (negb (Channels.id (obj row) =? 0)).
    + intros row -> Hid. apply Z.eqb_neq in Hid. by rewrite Hid.
    + intros Hnone. destruct (Channels.editedRow stC) as [row|]; [|done].
      by rewrite (Hnone row eq_refl).
    + intros data st. apply channels_resume_success.
      destruct (Channels.editedRow stC) as [row|]; [|by right].
      destruct (negb (Channels.id (obj row) =? 0)); [by left | by right].
  - eexists _, _. unfold trace, exec.
    rewrite (energy_meter_handleSubmit_valid _ _ HE).
    split; [apply energy_meter_onSubmit_requests|].
    split; [|split; [|split; [|split; [|split; [apply energy_meter_onSubmit_pending|]]]]].
    + destruct (EnergyMeter.editedRow stE) as [row|]; [|done].
      by destruct (negb (EnergyMeter.id (obj row) =? 0)).
    + destruct (EnergyMeter.editedRow stE) as [row|]; [|done].
      by destruct (negb (EnergyMeter.id (obj row) =? 0)).
    + intros row -> Hid. apply Z.eqb_neq in Hid. by rewrite Hid.
    + intros Hnone. destruct (EnergyMeter.editedRow stE) as [row|]; [|done].
      by rewrite (Hnone row eq_refl).
    + intros data st. apply energy_meter_resume_success.
      destruct (EnergyMeter.editedRow stE) as [row|]; [|by right].
      destruct (negb (EnergyMeter.id (obj row) =? 0)); [by left | by right].
Qed.

(** *** The address and the port of a row being edited *)

Lemma edit_form_bound_view st st' :
  edit_view st' = edit_view st → edit_form_bound st → edit_form_bound st'.
Proof.
  unfold edit_view, edit_form_bound. intros Hview Hst row Hrow.
  injection Hview as Hed Hip Hport. rewrite Hip, Hport. apply Hst. congruence.
Qed.

(** Every event but four leaves the edited row and the two inputs alone. *)
Lemma energy_meter_handle_keeps_edit_view ev st :
  match ev with
  | EnergyMeter.ClickNew | EnergyMeter.ClickModify
  | EnergyMeter.ChangeIpAddress _ | EnergyMeter.ChangePort _ => False
  | _ => True
  end →
  keeps_at edit_view (EnergyMeter.handle ev) st.
Proof.
  intros Hev. destruct ev; try done; unfold EnergyMeter.handle; kept_by_parts.
Qed.

Lemma energy_meter_new_edits_nothing st :
  EnergyMeter.editedRow (exec (EnergyMeter.handle EnergyMeter.ClickNew) st) = None.
Proof.
  unfold EnergyMeter.handle. autounfold with handlers. run_handler.
  by destruct (Object_is (EnergyMeter.editedRow st) None).
Qed.

(** Modify on the row already being edited keeps the form; on any other row
    the effect loads the row into the form. *)
Lemma energy_meter_modify_loads_row st :
  edit_form_bound st →
  edit_form_bound (exec (EnergyMeter.handle EnergyMeter.ClickModify) st).
Proof.
  intros Hst. unfold EnergyMeter.handle, EnergyMeter.button_disabled.
  autounfold with handlers. run_handler.
  destruct (EnergyMeter.selectedRow st) as [r|] eqn:Hsel; [|done].
  destruct (EnergyMeter.id (obj r) =? 0) eqn:Hid; cbn; [done|].
  unfold Object_is. case_bool_decide as Hsame; cbn.
  - intros row [= <-]. split; [by apply Z.eqb_neq|].
    intros Hpos. by apply (Hst r Hsame).
  - rewrite Hid. cbn. intros row [= <-]. split; [by apply Z.eqb_neq | done].
Qed.

Lemma edit_form_bound_unlocked st :
  edit_form_bound st → EnergyMeter.ip_port_disabled st = false →
  ∀ row, EnergyMeter.editedRow st = Some row →
    EnergyMeter.id (obj row) ≠ 0 ∧ ¬ -1 < EnergyMeter.id (obj row).
Proof.
  unfold EnergyMeter.ip_port_disabled. intros Hst Hfree row Hrow.
  rewrite Hrow in Hfree. apply Z.ltb_ge in Hfree.
  split; [by apply (Hst row Hrow) | lia].
Qed.

(** The two inputs take a change only while they are not disabled. *)
Lemma energy_meter_locked_fields st ev :
  match ev with
  | EnergyMeter.ChangeIpAddress _ | EnergyMeter.ChangePort _ => True
  | _ => False
  end →
  edit_form_bound st → edit_form_bound (exec (EnergyMeter.handle ev) st).
Proof.
  intros Hev Hst. pose proof (edit_form_bound_unlocked st Hst) as Hfree.
  destruct ev; try done;
    unfold EnergyMeter.handle; autounfold with handlers; run_handler;
    destruct (EnergyMeter.visible st); cbn; try done;
    destruct (EnergyMeter.ip_port_disabled st); cbn; try done;
    intros row Hrow; destruct (Hfree eq_refl row Hrow); done.
Qed.

Lemma edit_form_bound_handle ev st :
  edit_form_bound st → edit_form_bound (exec (EnergyMeter.handle ev) st).
Proof.
  intros Hst.
  destruct ev;
    first [ by apply energy_meter_locked_fields
          | by apply energy_meter_modify_loads_row
          | by (intros row Hrow; rewrite energy_meter_new_edits_nothing in Hrow)
          | by (eapply edit_form_bound_view; [apply energy_meter_handle_keeps_edit_view|]) ].
Qed.

Lemma edit_form_bound_run evs st :
  edit_form_bound st → edit_form_bound (EnergyMeter.run evs st).1.
Proof.
  revert st. induction evs as [|ev evs IH]; intros st Hst; [done|].
  rewrite energy_meter_run_state. by apply IH, edit_form_bound_handle.
Qed.

Lemma edit_form_bound_mounted : edit_form_bound EnergyMeter.mounted.
Proof. by intros row Hrow. Qed.

(** C2. However the energy meter page got there, while it edits a row whose
    id is greater than -1 the IP address and the port inputs are disabled,
    and a submission that passes the schema is a PUT to that row's resource
    whose body carries the row's own [ip_address] and [port]. *)
Theorem update_keeps_ip_and_port (evs : list EnergyMeter.Event)
    (row : Ref EnergyMeter.EnergyMeterValues) (data : EnergyMeter.FormValues) :
  let st := (EnergyMeter.run evs EnergyMeter.mounted).1 in
  EnergyMeter.editedRow st = Some row →
  -1 < EnergyMeter.id (obj row) →
  EnergyMeter.ip_port_disabled st = true
  ∧ (EnergyMeter.schema (EnergyMeter.formValues st) = Some data →
     ∃ params,
       requests (trace EnergyMeter.handleSubmit st)
       = [ {| url := "/api/admin/crud/energy_meter/" +:+ pretty (EnergyMeter.id (obj row));
              method := PUT; body := Some (JSON_stringify (VObj params)) |} ]
       ∧ params !! "ip_address" = Some (VStr (EnergyMeter.ip_address (obj row)))
       ∧ params !! "port" = Some (VNum (EnergyMeter.port (obj row)))).
Proof.
  intros st Hrow Hid.
  assert (Hinv : edit_form_bound st)
    by apply edit_form_bound_run, edit_form_bound_mounted.
  clearbody st. destruct (Hinv row Hrow) as [Hnz Hform].
  destruct (Hform Hid) as [Hip Hport]. split.
  - unfold EnergyMeter.ip_port_disabled. rewrite Hrow. by apply Z.ltb_lt.
  - intros Hschema. eexists. unfold trace.
    rewrite (energy_meter_handleSubmit_valid _ _ Hschema).
    fold (trace (EnergyMeter.onSubmit data) st).
    rewrite energy_meter_onSubmit_requests, Hrow.
    apply Z.eqb_neq in Hnz. rewrite Hnz. cbn. split; [reflexivity|].
    unfold EnergyMeter.schema in Hschema. rewrite Hport in Hschema.
    case_match; [|done]. injection Hschema as <-. cbn.
    rewrite Hip. split; reflexivity.
Qed.

End CrudFacts.

Lemma delete_without_selection_witness :
  Channels.selectedRow Channels.mounted = None
  ∧ EnergyMeter.selectedRow (@EnergyMeter.mounted example_platform) = None
  ∧ trace (@Channels.deleteSelectedRow example_platform) Channels.mounted = [].
Proof.
  split; [reflexivity | split; [reflexivity |]].
  apply (@delete_without_selection example_platform Channels.mounted
           (@EnergyMeter.mounted example_platform) eq_refl eq_refl).
Defined.

Lemma form_submission_witness :
  let stC := (@Channels.run example_platform channel_new Channels.mounted).1 in
  let stE := (@EnergyMeter.run example_platform meter_new
                (@EnergyMeter.mounted example_platform)).1 in
  ∃ dataC dataE,
    @Channels.schema (Channels.formValues stC) = Some dataC
    ∧ @EnergyMeter.schema example_platform (EnergyMeter.formValues stE) = Some dataE
    ∧ ∃ r, requests (trace (@Channels.handleSubmit example_platform) stC) = [r]
           ∧ is_mutation r = true.
Proof.
  intros stC stE. eexists _, _.
  split; [vm_compute; reflexivity | split; [vm_compute; reflexivity |]].
  destruct (@form_submission example_platform stC _ stE _
              ltac:(vm_compute; reflexivity) ltac:(vm_compute; reflexivity))
    as [(r & k & Hreq & Hmut & _) _].
  exists r. split; [exact Hreq | exact Hmut].
Defined.

Lemma update_keeps_ip_and_port_witness :
  let st := (@EnergyMeter.run example_platform meter_7_edit
               (@EnergyMeter.mounted example_platform)).1 in
  EnergyMeter.editedRow st = Some meter_7
  ∧ -1 < EnergyMeter.id (obj meter_7)
  ∧ EnergyMeter.ip_port_disabled st = true.
Proof.
  intros st.
  assert (Hrow : EnergyMeter.editedRow st = Some meter_7) by (vm_compute; reflexivity).
  assert (Hid : -1 < EnergyMeter.id (obj meter_7)) by (cbn; lia).
  split; [exact Hrow | split; [exact Hid |]].
  apply (@update_keeps_ip_and_port example_platform meter_7_edit meter_7
           {| EnergyMeter.fv_asset_name := "Boiler room 2";
              EnergyMeter.fv_ip_address := "192.168.1.237";
              EnergyMeter.fv_port := 50003;
              EnergyMeter.fv_time_zone := "Europe/Budapest";
              EnergyMeter.fv_enabled := true |} Hrow Hid).
Defined.

(** * Further properties *)

(** ** Lists *)

Lemma snoc_lookup_last {A} (l : list A) (k : A) : (l ++ [k]) !! length l = Some k.
Proof. by rewrite list_lookup_middle. Qed.

Lemma snoc_delete_last {A} (l : list A) (k : A) : delete (length l) (l ++ [k]) = l.
Proof. rewrite (delete_middle l [] k). apply app_nil_r. Qed.




(** Handlers that send no request of a kind, part by part. *)

Section SendsNo.
Context {S : Type} (p : Request → bool).

Lemma sends_no_ret {A} (a : A) : sends_no p (ret (S := S) a).
Proof. done. Qed.

Lemma sends_no_get_state : sends_no p (get_state (S := S)).
Proof. done. Qed.

Lemma sends_no_modify (f : S → S) : sends_no p (modify f).
Proof. done. Qed.

Lemma sends_no_toast m : sends_no p (emit (S := S) (ToastShow m)).
Proof. done. Qed.

Lemma sends_no_invalidate k : sends_no p (emit (S := S) (InvalidateQueries k)).
Proof. done. Qed.

Lemma sends_no_fetch r : p r = false → sends_no p (emit (S := S) (Fetch r)).
Proof. intros Hr s. cbn. by rewrite Hr. Qed.

Lemma sends_no_bind {A B} (m : M S A) (k : A → M S B) :
  sends_no p m → (∀ a, sends_no p (k a)) → sends_no p (bind m k).
Proof.
  intros Hm Hk s. by rewrite trace_bind, requests_app, List.filter_app, Hm, Hk.
Qed.

End SendsNo.

Create HintDb sends_no.
#[local] Hint Resolve sends_no_ret sends_no_get_state sends_no_modify sends_no_toast
  sends_no_invalidate sends_no_fetch sends_no_bind : sends_no.
#[local] Hint Extern 1 (_ = false) => reflexivity : sends_no.
#[local] Hint Extern 3 (sends_no _ (if ?b then _ else _)) => destruct b : sends_no.
#[local] Hint Extern 3 (sends_no _ (match ?x with _ => _ end)) => destruct x : sends_no.


(** ** More on the list queries *)
(** X13. Both list queries hand as many rows to the table as they fetched, in
    the same order, and change no property of a row other than [enabled]
    and, on the channels page, [assset_name]. *)
Theorem queryFn_touches_two_keys (values meters valuesE : list Obj) :
  length (Channels.queryFn values meters) = length values
  ∧ length (EnergyMeter.queryFn valuesE) = length valuesE
  ∧ (∀ (i : nat) row (k : string), Channels.queryFn values meters !! i = Some row →
       k ≠ "assset_name" → k ≠ "enabled" →
       ∃ element, values !! i = Some element ∧ row !! k = element !! k)
  ∧ (∀ (i : nat) row (k : string), EnergyMeter.queryFn valuesE !! i = Some row →
       k ≠ "enabled" →
       ∃ element, valuesE !! i = Some element ∧ row !! k = element !! k).
Proof.
  split; [apply length_map|]. split; [apply length_map|]. split.
  - intros i row k Hrow Hk1 Hk2. rewrite channels_queryFn_lookup in Hrow.
    destruct (values !! i) as [element|]; [|done]. injection Hrow as <-.
    exists element. split; [done|]. unfold Channels.queryFn_element.
    rewrite lookup_insert_ne by done.
    destruct (List.filter _ meters); [done|]. by rewrite lookup_insert_ne.
  - intros i row k Hrow Hk. unfold EnergyMeter.queryFn in Hrow.
    rewrite list_lookup_fmap in Hrow.
    destruct (valuesE !! i) as [element|]; [|done]. injection Hrow as <-.
    exists element. split; [done|]. unfold EnergyMeter.queryFn_element.
    by rewrite lookup_insert_ne.
Qed.

(** ** More on the report page *)

(** [zeroFill] pads with zeros a text that starts with none: the number can
    be read back. *)
Lemma strip_zeros_padding k s :
  strip_zeros (String.string_of_list_ascii (replicate k "0"%char) +:+ s) = strip_zeros s.
Proof. induction k as [|k IH]; [done|]. cbn. exact IH. Qed.

Lemma pretty_N_go_head x s :
  (0 < x)%N → ∃ c t, pretty_N_go x s = String c t ∧ c ≠ "0"%char.
Proof.
  revert s. induction (N.lt_wf_0 x) as [x _ IH]; intros s Hx.
  rewrite pretty_N_go_step by done.
  destruct (decide (x `div` 10 = 0)%N) as [Hsmall|Hbig].
  - rewrite Hsmall, pretty_N_go_0. eexists _, _. split; [done|].
    apply N.div_small_iff in Hsmall; [|done].
    rewrite N.mod_small by done.
    unfold pretty_N_char. repeat case_match; first [done | lia].
  - apply IH; [apply N.div_lt; lia |]. apply N.neq_0_lt_0. done.
Qed.

Lemma pretty_positive_head (y : Z) :
  0 < y → ∃ c t, pretty y = String c t ∧ c ≠ "0"%char.
Proof.
  destruct y as [|p|p]; try lia. intros _.
  unfold pretty, pretty_Z, pretty, pretty_positive, pretty, pretty_N.
  destruct (decide (N.pos p = 0%N)); [done|]. apply pretty_N_go_head. lia.
Qed.

Lemma zeroFill_strip y k :
  0 ≤ y → strip_zeros (Home.zeroFill y k) = if y =? 0 then "" else pretty y.
Proof.
  intros Hy. unfold Home.zeroFill.
  destruct (Z.leb_spec 0 y) as [_|]; [|lia].
  change ("" +:+ ?s) with s. rewrite strip_zeros_padding, Z.abs_eq by done.
  destruct (Z.eqb_spec y 0) as [->|Hnz]; [done|].
  destruct (pretty_positive_head y ltac:(lia)) as (c & t & -> & Hc).
  cbn. apply Ascii.eqb_neq in Hc. by rewrite Hc.
Qed.

Lemma zeroFill_inj y1 y2 k1 k2 :
  0 ≤ y1 → 0 ≤ y2 → Home.zeroFill y1 k1 = Home.zeroFill y2 k2 → y1 = y2.
Proof.
  intros H1 H2 Heq. apply (f_equal strip_zeros) in Heq.
  rewrite !zeroFill_strip in Heq by done.
  destruct (Z.eqb_spec y1 0) as [->|Hn1], (Z.eqb_spec y2 0) as [->|Hn2]; try done.
  - destruct (pretty_positive_head y2 ltac:(lia)) as (c & t & E & _). congruence.
  - destruct (pretty_positive_head y1 ltac:(lia)) as (c & t & E & _). congruence.
  - by apply (inj pretty).
Qed.

Section HomeMore.
Context `{Platform}.

(** X16. Two dates with four-digit years that print the same [YYYY-MM-DD]
    text are the same date: the [fromdate] and [todate] of a report request
    tell which days were asked for. *)
Theorem format_tells_dates_apart (d1 d2 : Home.Date) :
  valid_date d1 → valid_date d2 →
  Home.format_YYYY_MM_DD d1 = Home.format_YYYY_MM_DD d2 →
  d1 = d2.
Proof.
  intros (Hy1 & Hm1 & Hd1) (Hy2 & Hm2 & Hd2). unfold Home.format_YYYY_MM_DD.
  destruct (digits_4_inv _ (zeroFill_year _ Hy1)) as (? & ? & ? & ? & E1 & _).
  destruct (digits_4_inv _ (zeroFill_year _ Hy2)) as (? & ? & ? & ? & E2 & _).
  destruct (digits_2_inv _ (zeroFill_two (Home.month d1) ltac:(lia))) as (? & ? & E3 & _).
  destruct (digits_2_inv _ (zeroFill_two (Home.month d2) ltac:(lia))) as (? & ? & E4 & _).
  destruct (digits_2_inv _ (zeroFill_two (Home.day d1) ltac:(lia))) as (? & ? & E5 & _).
  destruct (digits_2_inv _ (zeroFill_two (Home.day d2) ltac:(lia))) as (? & ? & E6 & _).
  intros Heq. rewrite E1, E2, E3, E4, E5, E6 in Heq. cbv [String.append] in Heq.
  injection Heq as -> -> -> -> -> -> -> ->.
  rewrite <- E2 in E1. rewrite <- E4 in E3. rewrite <- E6 in E5.
  apply zeroFill_inj in E1, E3, E5; try lia.
  destruct d1, d2. cbn in *. congruence.
Qed.

(** X14. The report page reports no failure of the request itself: when the
    fetch or the parsing of the body rejects, or the body is [null], no toast
    is shown and the table keeps what it showed.  A body that is an array or
    a primitive becomes the value of the table as it is. *)
Theorem home_report_failure_is_silent (st : Home.State) (err : Value) :
  Home.updateTable_resume (Rejected err) st = (tt, st, [])
  ∧ Home.updateTable_resume (Resolved VNull) st = (tt, st, [])
  ∧ (∀ values,
       match values with
       | VBool _ | VNum _ | VStr _ | VArr _ => True
       | _ => False
       end →
       Home.updateTable_resume (Resolved values) st
       = (tt, {| Home.measurements := values; Home.channels := Home.channels st;
                 Home.toast_current := Home.toast_current st |}, [])).
Proof.
  split; [done|]. split; [done|]. intros values Hv. by destruct values.
Qed.


End HomeMore.

(** ** More on the two CRUD pages *)

Section CrudMore.
Context `{Platform}.

(** *** One event after another *)

Lemma channels_run_two e1 e2 st :
  Channels.run [e1; e2] st
  = (exec (Channels.handle e2) (exec (Channels.handle e1) st),
     trace (Channels.handle e1) st ++ trace (Channels.handle e2) (exec (Channels.handle e1) st)).
Proof. cbn. by rewrite app_nil_r. Qed.

Lemma channels_handle_settle i o st :
  Channels.handle (Channels.Settle i o) st = Channels.settle i o st.
Proof.
  unfold Channels.handle, bind, get_state.
  by destruct (Channels.settle i o st) as [[[] ?] ?].
Qed.

(** The callback that a handler has just left behind, when its request is
    the next to settle, runs in the state the handler started from. *)
Lemma channels_settle_last st k o :
  Channels.settle (length (Channels.pending st)) o
    (Channels.mkState (Channels.lazyState st) (Channels.editedRow st)
       (Channels.selectedRow st) (Channels.visible st) (Channels.confirmDialogVisible st)
       (Channels.energy_meterValues st) (Channels.formValues st)
       (Channels.toast_current st) (Channels.pending st ++ [k]))
  = Channels.resume k o st.
Proof.
  destruct st as [ls ed sel vis cv em fv tc pe].
  unfold Channels.settle, Channels.setPending, bind, get_state, modify.
  cbn [Channels.pending]. rewrite snoc_lookup_last, snoc_delete_last.
  by destruct (Channels.resume k o _) as [[[] ?] ?].
Qed.

Lemma channels_fetch_then r k st :
  Channels.fetch_then r k st
  = (tt, Channels.mkState (Channels.lazyState st) (Channels.editedRow st)
           (Channels.selectedRow st) (Channels.visible st)
           (Channels.confirmDialogVisible st) (Channels.energy_meterValues st)
           (Channels.formValues st) (Channels.toast_current st)
           (Channels.pending st ++ [k]), [Fetch r]).
Proof. done. Qed.

Lemma channels_submit_valid st data :
  Channels.visible st = true →
  Channels.schema (Channels.formValues st) = Some data →
  ∃ r k, requests (trace Channels.handleSubmit st) = [r]
    ∧ (k = match method r with PUT => Channels.AfterUpdate | _ => Channels.AfterSave end)
    ∧ Channels.handle Channels.Submit st = Channels.fetch_then r k st.
Proof.
  intros Hvis Hdata.
  assert (Hhandle : Channels.handle Channels.Submit st = Channels.onSubmit data st).
  { unfold Channels.handle, bind, get_state. rewrite Hvis.
    rewrite (channels_handleSubmit_valid _ _ Hdata).
    by destruct (Channels.onSubmit data st) as [[[] ?] ?]. }
  eexists _, _. unfold trace at 1.
  rewrite (channels_handleSubmit_valid _ _ Hdata), Hhandle.
  split; [apply channels_onSubmit_requests|].
  split; [reflexivity|].
  unfold Channels.onSubmit, bind, get_state.
  destruct (Channels.editedRow st) as [row|];
    [destruct (negb (Channels.id (obj row) =? 0))|];
    by destruct (Channels.fetch_then _ _ st) as [[[] ?] ?].
Qed.

Lemma channels_saved k d st :
  Channels.toast_current st = true →
  k = Channels.AfterUpdate ∨ k = Channels.AfterSave →
  Channels.resume k (Resolved d) st
  = (tt, Channels.mkState (Channels.lazyState st) (Channels.editedRow st) None false
           (Channels.confirmDialogVisible st) (Channels.energy_meterValues st)
           (Channels.formValues st) (Channels.toast_current st) (Channels.pending st),
     [ InvalidateQueries "channels"; InvalidateQueries "channelscount";
       ToastShow {| severity := success; summary := "Form submit";
                    detail := VStr ((match k with
                                     | Channels.AfterUpdate => "Updated channel: "
                                     | _ => "Saved channel: "
                                     end) +:+ JSON_stringify d) |} ]).
Proof.
  intros Htoast [-> | ->];
    unfold Channels.resume, Channels.updatePage, Channels.show, Channels.setSelectedRow,
      Channels.setVisible, bind, get_state, modify, emit, ret; cbn; by rewrite Htoast.
Qed.

Lemma channels_failed k err st :
  Channels.toast_current st = true →
  k = Channels.AfterUpdate ∨ k = Channels.AfterSave ∨ k = Channels.AfterDelete →
  Channels.resume k (Rejected err) st
  = (tt, st, [ToastShow {| severity := error; summary := "Form submit"; detail := err |}]).
Proof.
  intros Htoast [-> | [-> | ->]];
    unfold Channels.resume, Channels.show, bind, get_state, emit; by rewrite Htoast.
Qed.

Lemma energy_meter_run_two e1 e2 st :
  EnergyMeter.run [e1; e2] st
  = (exec (EnergyMeter.handle e2) (exec (EnergyMeter.handle e1) st),
     trace (EnergyMeter.handle e1) st
     ++ trace (EnergyMeter.handle e2) (exec (EnergyMeter.handle e1) st)).
Proof. cbn. by rewrite app_nil_r. Qed.

Lemma energy_meter_handle_settle i o st :
  EnergyMeter.handle (EnergyMeter.Settle i o) st = EnergyMeter.settle i o st.
Proof.
  unfold EnergyMeter.handle, bind, get_state.
  by destruct (EnergyMeter.settle i o st) as [[[] ?] ?].
Qed.

(** The callback that a handler has just left behind, when its request is
    the next to settle, runs in the state the handler started from. *)
Lemma energy_meter_settle_last st k o :
  EnergyMeter.settle (length (EnergyMeter.pending st)) o
    (EnergyMeter.mkState (EnergyMeter.lazyState st) (EnergyMeter.editedRow st)
       (EnergyMeter.selectedRow st) (EnergyMeter.visible st)
       (EnergyMeter.confirmDialogVisible st) (EnergyMeter.formValues st)
       (EnergyMeter.toast_current st) (EnergyMeter.pending st ++ [k]))
  = EnergyMeter.resume k o st.
Proof.
  destruct st as [ls ed sel vis cv fv tc pe].
  unfold EnergyMeter.settle, EnergyMeter.setPending, bind, get_state, modify.
  cbn [EnergyMeter.pending]. rewrite snoc_lookup_last, snoc_delete_last.
  by destruct (EnergyMeter.resume k o _) as [[[] ?] ?].
Qed.

Lemma energy_meter_fetch_then r k st :
  EnergyMeter.fetch_then r k st
  = (tt, EnergyMeter.mkState (EnergyMeter.lazyState st) (EnergyMeter.editedRow st)
           (EnergyMeter.selectedRow st) (EnergyMeter.visible st)
           (EnergyMeter.confirmDialogVisible st) (EnergyMeter.formValues st)
           (EnergyMeter.toast_current st) (EnergyMeter.pending st ++ [k]), [Fetch r]).
Proof. done. Qed.

Lemma energy_meter_submit_valid st data :
  EnergyMeter.visible st = true →
  EnergyMeter.schema (EnergyMeter.formValues st) = Some data →
  ∃ r k, requests (trace EnergyMeter.handleSubmit st) = [r]
    ∧ (k = match method r with
           | PUT => EnergyMeter.AfterUpdate
           | _ => EnergyMeter.AfterSave
           end)
    ∧ EnergyMeter.handle EnergyMeter.Submit st = EnergyMeter.fetch_then r k st.
Proof.
  intros Hvis Hdata.
  assert (Hhandle : EnergyMeter.handle EnergyMeter.Submit st
                    = EnergyMeter.onSubmit data st).
  { unfold EnergyMeter.handle, bind, get_state. rewrite Hvis.
    rewrite (energy_meter_handleSubmit_valid _ _ Hdata).
    by destruct (EnergyMeter.onSubmit data st) as [[[] ?] ?]. }
  eexists _, _. unfold trace at 1.
  rewrite (energy_meter_handleSubmit_valid _ _ Hdata), Hhandle.
  split; [apply energy_meter_onSubmit_requests|].
  split; [reflexivity|].
  unfold EnergyMeter.onSubmit, bind, get_state.
  destruct (EnergyMeter.editedRow st) as [row|];
    [destruct (negb (EnergyMeter.id (obj row) =? 0))|];
    by destruct (EnergyMeter.fetch_then _ _ st) as [[[] ?] ?].
Qed.

Lemma energy_meter_saved k d st :
  EnergyMeter.toast_current st = true →
  k = EnergyMeter.AfterUpdate ∨ k = EnergyMeter.AfterSave →
  EnergyMeter.resume k (Resolved d) st
  = (tt, EnergyMeter.mkState (EnergyMeter.lazyState st) (EnergyMeter.editedRow st) None false
           (EnergyMeter.confirmDialogVisible st) (EnergyMeter.formValues st)
           (EnergyMeter.toast_current st) (EnergyMeter.pending st),
     [ InvalidateQueries "energy_meter"; InvalidateQueries "energy_metercount";
       ToastShow {| severity := success; summary := "Form submit";
                    detail := VStr ((match k with
                                     | EnergyMeter.AfterUpdate => "Updated energymeter: "
                                     | _ => "Saved energymeter: "
                                     end) +:+ JSON_stringify d) |} ]).
Proof.
  intros Htoast [-> | ->];
    unfold EnergyMeter.resume, EnergyMeter.updatePage, EnergyMeter.show, EnergyMeter.setSelectedRow,
      EnergyMeter.setVisible, bind, get_state, modify, emit, ret; cbn; by rewrite Htoast.
Qed.

Lemma energy_meter_failed k err st :
  EnergyMeter.toast_current st = true →
  k = EnergyMeter.AfterUpdate ∨ k = EnergyMeter.AfterSave ∨ k = EnergyMeter.AfterDelete →
  EnergyMeter.resume k (Rejected err) st
  = (tt, st, [ToastShow {| severity := error; summary := "Form submit"; detail := err |}]).
Proof.
  intros Htoast [-> | [-> | ->]];
    unfold EnergyMeter.resume, EnergyMeter.show, bind, get_state, emit; by rewrite Htoast.
Qed.

Lemma channels_run_state ev evs st :
  (Channels.run (ev :: evs) st).1 = (Channels.run evs (exec (Channels.handle ev) st)).1.
Proof. cbn. by destruct (Channels.run evs _). Qed.

(** X1. On the channels page, a valid submission followed by its response:
    when the response arrives the page has sent the one request, invalidated
    the list and the count query, shown the success toast, closed the dialog
    and cleared the selection; when the request fails the page has sent the
    request and shown the error, and is otherwise as it was, dialog open. *)
Theorem channels_submit_round_trip (st : Channels.State) (data : Channels.FormValues)
    (d err : Value) :
  Channels.visible st = true →
  Channels.toast_current st = true →
  Channels.schema (Channels.formValues st) = Some data →
  ∃ r, requests (trace Channels.handleSubmit st) = [r]
    ∧ Channels.run [Channels.Submit;
                    Channels.Settle (length (Channels.pending st)) (Resolved d)] st
      = (Channels.mkState (Channels.lazyState st) (Channels.editedRow st) None false
           (Channels.confirmDialogVisible st) (Channels.energy_meterValues st)
           (Channels.formValues st) (Channels.toast_current st) (Channels.pending st),
         [ Fetch r; InvalidateQueries "channels"; InvalidateQueries "channelscount";
           ToastShow {| severity := success; summary := "Form submit";
                        detail := VStr ((match method r with
                                         | PUT => "Updated channel: "
                                         | _ => "Saved channel: "
                                         end) +:+ JSON_stringify d) |} ])
    ∧ Channels.run [Channels.Submit;
                    Channels.Settle (length (Channels.pending st)) (Rejected err)] st
      = (st, [ Fetch r;
               ToastShow {| severity := error; summary := "Form submit"; detail := err |} ]).
Proof.
  intros Hvis Htoast Hdata.
  destruct (channels_submit_valid st data Hvis Hdata) as (r & k & Hr & Hk & Hsub).
  exists r. split; [exact Hr|].
  rewrite !channels_run_two. unfold exec, trace.
  rewrite Hsub, channels_fetch_then, !channels_handle_settle. cbn [fst snd].
  rewrite !channels_settle_last.
  assert (Hk' : k = Channels.AfterUpdate ∨ k = Channels.AfterSave)
    by (rewrite Hk; destruct (method r); auto).
  rewrite (channels_saved k d st Htoast Hk').
  rewrite (channels_failed k err st Htoast) by tauto.
  cbn [fst snd app]. split; [|done].
  repeat f_equal. rewrite Hk. by destruct (method r).
Qed.

(** X2. The same on the energy meter page. *)
Theorem energy_meter_submit_round_trip (st : EnergyMeter.State)
    (data : EnergyMeter.FormValues) (d err : Value) :
  EnergyMeter.visible st = true →
  EnergyMeter.toast_current st = true →
  EnergyMeter.schema (EnergyMeter.formValues st) = Some data →
  ∃ r, requests (trace EnergyMeter.handleSubmit st) = [r]
    ∧ EnergyMeter.run [EnergyMeter.Submit;
                       EnergyMeter.Settle (length (EnergyMeter.pending st)) (Resolved d)] st
      = (EnergyMeter.mkState (EnergyMeter.lazyState st) (EnergyMeter.editedRow st) None false
           (EnergyMeter.confirmDialogVisible st) (EnergyMeter.formValues st)
           (EnergyMeter.toast_current st) (EnergyMeter.pending st),
         [ Fetch r; InvalidateQueries "energy_meter"; InvalidateQueries "energy_metercount";
           ToastShow {| severity := success; summary := "Form submit";
                        detail := VStr ((match method r with
                                         | PUT => "Updated energymeter: "
                                         | _ => "Saved energymeter: "
                                         end) +:+ JSON_stringify d) |} ])
    ∧ EnergyMeter.run [EnergyMeter.Submit;
                       EnergyMeter.Settle (length (EnergyMeter.pending st)) (Rejected err)] st
      = (st, [ Fetch r;
               ToastShow {| severity := error; summary := "Form submit"; detail := err |} ]).
Proof.
  intros Hvis Htoast Hdata.
  destruct (energy_meter_submit_valid st data Hvis Hdata) as (r & k & Hr & Hk & Hsub).
  exists r. split; [exact Hr|].
  rewrite !energy_meter_run_two. unfold exec, trace.
  rewrite Hsub, energy_meter_fetch_then, !energy_meter_handle_settle. cbn [fst snd].
  rewrite !energy_meter_settle_last.
  assert (Hk' : k = EnergyMeter.AfterUpdate ∨ k = EnergyMeter.AfterSave)
    by (rewrite Hk; destruct (method r); auto).
  rewrite (energy_meter_saved k d st Htoast Hk').
  rewrite (energy_meter_failed k err st Htoast) by tauto.
  cbn [fst snd app]. split; [|done].
  repeat f_equal. rewrite Hk. by destruct (method r).
Qed.

Ltac channels_compute :=
  unfold Channels.run, exec, trace, Channels.handle, Channels.button_disabled,
    Channels.deleteSelectedRow, Channels.fetch_then, Channels.settle, Channels.setPending,
    Channels.setConfirmDialogVisible, Channels.resume, Channels.updatePage, Channels.show,
    Channels.setSelectedRow, Channels.setVisible, Channels.setEditedRow,
    bind, get_state, modify, emit, ret.

Ltac energy_meter_compute :=
  unfold EnergyMeter.run, exec, trace, EnergyMeter.handle, EnergyMeter.button_disabled,
    EnergyMeter.deleteSelectedRow, EnergyMeter.fetch_then, EnergyMeter.settle, EnergyMeter.setPending,
    EnergyMeter.setConfirmDialogVisible, EnergyMeter.resume, EnergyMeter.updatePage, EnergyMeter.show,
    EnergyMeter.setSelectedRow, EnergyMeter.setVisible, EnergyMeter.setEditedRow,
    bind, get_state, modify, emit, ret.

(** X3. On the channels page with a row selected: Delete, accept and the
    response send one DELETE to the resource of the selected row, show the
    success toast, invalidate the two queries and clear the selection; a
    failed request shows the error and keeps the selection; Delete and then
    closing the confirm dialog sends nothing.  The dialog is closed in all
    three. *)
Theorem channels_delete_round_trip (st : Channels.State) (row : Ref Channels.ChannelValues)
    (d err : Value) :
  Channels.selectedRow st = Some row →
  Channels.id (obj row) ≠ 0 →
  Channels.toast_current st = true →
  let r := {| url := "/api/admin/crud/channels/" +:+ pretty (Channels.id (obj row));
              method := DELETE;
              body := Some (JSON_stringify (VObj {[ "action" := VStr "delete" ]})) |} in
  let closed sel :=
    Channels.mkState (Channels.lazyState st) (Channels.editedRow st) sel
      (Channels.visible st) false (Channels.energy_meterValues st)
      (Channels.formValues st) (Channels.toast_current st) (Channels.pending st) in
  Channels.run [Channels.ClickDelete; Channels.ConfirmAccept;
                Channels.Settle (length (Channels.pending st)) (Resolved d)] st
  = (closed None,
     [ Fetch r;
       ToastShow {| severity := success; summary := "Form submit";
                    detail := VStr ("Deleted channels: " +:+ JSON_stringify d) |};
       InvalidateQueries "channels"; InvalidateQueries "channelscount" ])
  ∧ Channels.run [Channels.ClickDelete; Channels.ConfirmAccept;
                  Channels.Settle (length (Channels.pending st)) (Rejected err)] st
    = (closed (Some row),
       [ Fetch r; ToastShow {| severity := error; summary := "Form submit"; detail := err |} ])
  ∧ Channels.run [Channels.ClickDelete; Channels.ConfirmHide] st = (closed (Some row), []).
Proof.
  intros Hsel Hid Htoast r closed. subst r closed.
  destruct st as [ls ed sel vis cv em fv tc pe]. cbn in Hsel, Htoast. subst sel tc.
  apply Z.eqb_neq in Hid.
  repeat split; channels_compute; cbn -[lookup delete]; rewrite Hid; cbn -[lookup delete];
    rewrite ?snoc_lookup_last, ?snoc_delete_last; reflexivity.
Qed.

(** X4. The same on the energy meter page. *)
Theorem energy_meter_delete_round_trip (st : EnergyMeter.State)
    (row : Ref EnergyMeter.EnergyMeterValues) (d err : Value) :
  EnergyMeter.selectedRow st = Some row →
  EnergyMeter.id (obj row) ≠ 0 →
  EnergyMeter.toast_current st = true →
  let r := {| url := "/api/admin/crud/energy_meter/" +:+ pretty (EnergyMeter.id (obj row));
              method := DELETE;
              body := Some (JSON_stringify (VObj {[ "action" := VStr "delete" ]})) |} in
  let closed sel :=
    EnergyMeter.mkState (EnergyMeter.lazyState st) (EnergyMeter.editedRow st) sel
      (EnergyMeter.visible st) false (EnergyMeter.formValues st)
      (EnergyMeter.toast_current st) (EnergyMeter.pending st) in
  EnergyMeter.run [EnergyMeter.ClickDelete; EnergyMeter.ConfirmAccept;
                   EnergyMeter.Settle (length (EnergyMeter.pending st)) (Resolved d)] st
  = (closed None,
     [ Fetch r;
       ToastShow {| severity := success; summary := "Form submit";
                    detail := VStr ("Deleted energy_meter: " +:+ JSON_stringify d) |};
       InvalidateQueries "energy_meter"; InvalidateQueries "energy_metercount" ])
  ∧ EnergyMeter.run [EnergyMeter.ClickDelete; EnergyMeter.ConfirmAccept;
                     EnergyMeter.Settle (length (EnergyMeter.pending st)) (Rejected err)] st
    = (closed (Some row),
       [ Fetch r; ToastShow {| severity := error; summary := "Form submit"; detail := err |} ])
  ∧ EnergyMeter.run [EnergyMeter.ClickDelete; EnergyMeter.ConfirmHide] st
    = (closed (Some row), []).
Proof.
  intros Hsel Hid Htoast r closed. subst r closed.
  destruct st as [ls ed sel vis cv fv tc pe]. cbn in Hsel, Htoast. subst sel tc.
  apply Z.eqb_neq in Hid.
  repeat split; energy_meter_compute; cbn -[lookup delete]; rewrite Hid;
    cbn -[lookup delete]; rewrite ?snoc_lookup_last, ?snoc_delete_last; reflexivity.
Qed.

(** *** Validation *)

(** X5. The channels form passes exactly when the channel number is set and
    at least 1 and the channel name is not empty; the energy meter id is not
    looked at, and the data passed on are the values of the form.  A form
    that does not pass sends nothing and changes nothing: the page only shows
    the error toast. *)
Theorem channels_validation_gate (st : Channels.State) :
  (∀ data, Channels.schema (Channels.formValues st) = Some data ↔
     ∃ c, Channels.f_channel (Channels.formValues st) = Some c ∧ 1 ≤ c
          ∧ Channels.f_channel_name (Channels.formValues st) ≠ ""
          ∧ data = {| Channels.fv_energy_meter_id :=
                        Channels.f_energy_meter_id (Channels.formValues st);
                      Channels.fv_channel := c;
                      Channels.fv_channel_name :=
                        Channels.f_channel_name (Channels.formValues st);
                      Channels.fv_enabled := Channels.f_enabled (Channels.formValues st) |})
  ∧ (Channels.schema (Channels.formValues st) = None →
     Channels.toast_current st = true →
     Channels.run [Channels.Submit] st
     = (st, if Channels.visible st
            then [ToastShow {| severity := error; summary := "Form submit";
                               detail := VStr "Please fill form as needed. Read tooltips on red marked fields." |}]
            else [])).
Proof.
  split.
  - intros data. unfold Channels.schema. split.
    + destruct (Channels.f_channel (Channels.formValues st)) as [c|]; [|done].
      destruct (Z.leb_spec 1 c) as [Hc|Hc]; [|done].
      destruct (String.eqb_spec (Channels.f_channel_name (Channels.formValues st)) "")
        as [Hn|Hn]; [done|].
      intros [= <-]. by exists c.
    + intros (c & -> & Hc & Hn & ->).
      apply Z.leb_le in Hc. apply String.eqb_neq in Hn. by rewrite Hc, Hn.
  - intros Hbad Htoast.
    unfold Channels.run, exec, trace, Channels.handle, Channels.handleSubmit,
      Channels.onSubmitError, Channels.show, bind, get_state, emit, ret.
    destruct (Channels.visible st); [rewrite Hbad, Htoast|]; by destruct st.
Qed.


(** *** Requests need a command *)








(** *** The edited row carries an id *)

Lemma channels_handle_keeps_editedRow ev st :
  match ev with Channels.ClickNew | Channels.ClickModify => False | _ => True end →
  keeps_at Channels.editedRow (Channels.handle ev) st.
Proof.
  intros Hev. destruct ev; try done; unfold Channels.handle;
    kept_by_parts.
Qed.

Lemma channels_new_edits_nothing st :
  Channels.editedRow (exec (Channels.handle Channels.ClickNew) st) = None.
Proof.
  unfold Channels.handle. autounfold with handlers. run_handler.
  by destruct (Object_is (Channels.editedRow st) None).
Qed.

Lemma channels_modify_edits_selected st :
  Channels.editedRow (exec (Channels.handle Channels.ClickModify) st)
  = if Channels.button_disabled st then Channels.editedRow st else Channels.selectedRow st.
Proof.
  unfold Channels.handle. autounfold with handlers. run_handler.
  destruct (Channels.button_disabled st); [done|]. cbn.
  destruct (Object_is (Channels.editedRow st) (Channels.selectedRow st)); [done|]. cbn.
  destruct (Channels.selectedRow st) as [r|]; [|done]. cbn.
  by destruct (negb (Channels.id (obj r) =? 0)).
Qed.

Lemma channels_edited_has_id_run evs st :
  (∀ row, Channels.editedRow st = Some row → Channels.id (obj row) ≠ 0) →
  ∀ row, Channels.editedRow (Channels.run evs st).1 = Some row → Channels.id (obj row) ≠ 0.
Proof.
  revert st. induction evs as [|ev evs IH]; intros st Hst; [done|].
  rewrite channels_run_state. apply IH. intros row.
  destruct ev;
    first [ rewrite channels_new_edits_nothing; done
          | rewrite channels_modify_edits_selected; unfold Channels.button_disabled;
            destruct (Channels.selectedRow st) as [r|] eqn:Hsel; [|by apply Hst];
            destruct (Channels.id (obj r) =? 0) eqn:Hid; cbn; [by apply Hst|];
            intros [= <-]; by apply Z.eqb_neq
          | rewrite channels_handle_keeps_editedRow by done; apply Hst ].
Qed.

(** X7. However a page got there from its mounted state, a valid submission
    is a PUT to the resource of the edited row when there is an edited row
    and a POST to the collection when there is none: an edited row without
    an id does not occur. *)
Theorem verb_follows_edited_row (evsC : list Channels.Event) (dataC : Channels.FormValues)
    (evsE : list EnergyMeter.Event) (dataE : EnergyMeter.FormValues) :
  let stC := (Channels.run evsC Channels.mounted).1 in
  let stE := (EnergyMeter.run evsE EnergyMeter.mounted).1 in
  Channels.schema (Channels.formValues stC) = Some dataC →
  EnergyMeter.schema (EnergyMeter.formValues stE) = Some dataE →
  requests (trace Channels.handleSubmit stC)
  = [ match Channels.editedRow stC with
      | Some row => {| url := "/api/admin/crud/channels/" +:+ pretty (Channels.id (obj row));
                       method := PUT;
                       body := Some (JSON_stringify (Channels.params_of dataC)) |}
      | None => {| url := "/api/admin/crud/channels"; method := POST;
                   body := Some (JSON_stringify (Channels.params_of dataC)) |}
      end ]
  ∧ requests (trace EnergyMeter.handleSubmit stE)
    = [ match EnergyMeter.editedRow stE with
        | Some row => {| url := "/api/admin/crud/energy_meter/"
                                  +:+ pretty (EnergyMeter.id (obj row));
                         method := PUT;
                         body := Some (JSON_stringify (EnergyMeter.params_of dataE)) |}
        | None => {| url := "/api/admin/crud/energy_meter"; method := POST;
                     body := Some (JSON_stringify (EnergyMeter.params_of dataE)) |}
        end ].
Proof.
  intros stC stE HC HE. split.
  - unfold trace. rewrite (channels_handleSubmit_valid _ _ HC).
    fold (trace (Channels.onSubmit dataC) stC). rewrite channels_onSubmit_requests.
    destruct (Channels.editedRow stC) as [row|] eqn:Hrow; [|done].
    assert (Hid : Channels.id (obj row) ≠ 0)
      by (by apply (channels_edited_has_id_run evsC Channels.mounted)).
    apply Z.eqb_neq in Hid. by rewrite Hid.
  - unfold trace. rewrite (energy_meter_handleSubmit_valid _ _ HE).
    fold (trace (EnergyMeter.onSubmit dataE) stE). rewrite energy_meter_onSubmit_requests.
    destruct (EnergyMeter.editedRow stE) as [row|] eqn:Hrow; [|done].
    destruct (edit_form_bound_run evsE _ edit_form_bound_mounted row Hrow) as [Hid _].
    apply Z.eqb_neq in Hid. by rewrite Hid.
Qed.

(** *** Opening the dialog *)

(** What the effect of the edited row leaves in the form. *)
Lemma energy_meter_editedRowEffect st :
  EnergyMeter.editedRowEffect st
  = (tt,
     EnergyMeter.mkState (EnergyMeter.lazyState st) (EnergyMeter.editedRow st)
       (EnergyMeter.selectedRow st) (EnergyMeter.visible st)
       (EnergyMeter.confirmDialogVisible st)
       (match EnergyMeter.editedRow st with
        | Some r => if EnergyMeter.id (obj r) =? 0 then EnergyMeter_blank_form
                    else EnergyMeter_form_of (obj r)
        | None => EnergyMeter_blank_form
        end)
       (EnergyMeter.toast_current st) (EnergyMeter.pending st),
     []).
Proof.
  destruct st as [ls [r|] sel vis cv fv tc pe]; unfold EnergyMeter.editedRowEffect;
    unfold bind at 1; unfold get_state at 1; cbn [EnergyMeter.editedRow];
    [destruct (EnergyMeter.id (obj r) =? 0); cbn [negb];
     [|unfold EnergyMeter_form_of; destruct (EnergyMeter.enabled (obj r))]|];
    reflexivity.
Qed.

Lemma channels_editedRowEffect st :
  Channels.editedRowEffect st
  = (tt,
     Channels.mkState (Channels.lazyState st) (Channels.editedRow st)
       (Channels.selectedRow st) (Channels.visible st) (Channels.confirmDialogVisible st)
       (Channels.energy_meterValues st)
       (match Channels.editedRow st with
        | Some r => if Channels.id (obj r) =? 0 then Channels_blank_form
                    else Channels_form_of (obj r)
        | None => Channels_blank_form
        end)
       (Channels.toast_current st)
       (Channels.pending st ++ [Channels.AfterFetchEnergyMeters]),
     [Fetch {| url := "/api/admin/crud/energy_meter"; method := GET; body := None |}]).
Proof.
  destruct st as [ls [r|] sel vis cv em fv tc pe]; unfold Channels.editedRowEffect;
    unfold bind at 1; unfold Channels.fetchEnergy_meterValues, Channels.fetch_then;
    unfold bind at 1 2 3; unfold emit, get_state at 1 2, Channels.setPending, modify at 1;
    cbn [Channels.editedRow Channels.pending Channels.lazyState Channels.selectedRow
         Channels.visible Channels.confirmDialogVisible Channels.energy_meterValues
         Channels.formValues Channels.toast_current];
    [destruct (Channels.id (obj r) =? 0); cbn [negb];
     [|unfold Channels_form_of; destruct (Channels.enabled (obj r))]|];
    reflexivity.
Qed.

Lemma energy_meter_afterRender previous st :
  EnergyMeter.afterRender previous st
  = if Object_is previous (EnergyMeter.editedRow st) then (tt, st, [])
    else EnergyMeter.editedRowEffect st.
Proof.
  unfold EnergyMeter.afterRender, bind, get_state.
  destruct (Object_is previous (EnergyMeter.editedRow st)); [done|].
  by destruct (EnergyMeter.editedRowEffect st) as [[[] ?] ?].
Qed.

Lemma channels_afterRender previous st :
  Channels.afterRender previous st
  = if Object_is previous (Channels.editedRow st) then (tt, st, [])
    else Channels.editedRowEffect st.
Proof.
  unfold Channels.afterRender, bind, get_state.
  destruct (Object_is previous (Channels.editedRow st)); [done|].
  by destruct (Channels.editedRowEffect st) as [[[] ?] ?].
Qed.

Lemma energy_meter_ClickNew st :
  EnergyMeter.handle EnergyMeter.ClickNew st
  = EnergyMeter.afterRender (EnergyMeter.editedRow st)
      (EnergyMeter.mkState (EnergyMeter.lazyState st) None None true
         (EnergyMeter.confirmDialogVisible st) (EnergyMeter.formValues st)
         (EnergyMeter.toast_current st) (EnergyMeter.pending st)).
Proof.
  unfold EnergyMeter.handle, EnergyMeter.setSelectedRow, EnergyMeter.setEditedRow,
    EnergyMeter.setVisible, bind, get_state, modify. cbn -[EnergyMeter.afterRender].
  by destruct (EnergyMeter.afterRender _ _) as [[[] ?] ?].
Qed.

Lemma channels_ClickNew st :
  Channels.handle Channels.ClickNew st
  = Channels.afterRender (Channels.editedRow st)
      (Channels.mkState (Channels.lazyState st) None None true
         (Channels.confirmDialogVisible st) (Channels.energy_meterValues st)
         (Channels.formValues st) (Channels.toast_current st) (Channels.pending st)).
Proof.
  unfold Channels.handle, Channels.setSelectedRow, Channels.setEditedRow,
    Channels.setVisible, bind, get_state, modify. cbn -[Channels.afterRender].
  by destruct (Channels.afterRender _ _) as [[[] ?] ?].
Qed.

Lemma energy_meter_ClickModify st row :
  EnergyMeter.selectedRow st = Some row →
  EnergyMeter.id (obj row) ≠ 0 →
  EnergyMeter.handle EnergyMeter.ClickModify st
  = EnergyMeter.afterRender (EnergyMeter.editedRow st)
      (EnergyMeter.mkState (EnergyMeter.lazyState st) (Some row) (Some row) true
         (EnergyMeter.confirmDialogVisible st)
         {| EnergyMeter.f_asset_name := EnergyMeter.f_asset_name (EnergyMeter.formValues st);
            EnergyMeter.f_ip_address := EnergyMeter.f_ip_address (EnergyMeter.formValues st);
            EnergyMeter.f_port := EnergyMeter.f_port (EnergyMeter.formValues st);
            EnergyMeter.f_time_zone := defaultTimeZone;
            EnergyMeter.f_enabled := EnergyMeter.f_enabled (EnergyMeter.formValues st) |}
         (EnergyMeter.toast_current st) (EnergyMeter.pending st)).
Proof.
  intros Hsel Hid. apply Z.eqb_neq in Hid.
  unfold EnergyMeter.handle, EnergyMeter.button_disabled. unfold bind at 1, get_state at 1.
  rewrite Hsel, Hid. cbn [negb].
  unfold EnergyMeter.setEditedRow, EnergyMeter.setValue_time_zone, EnergyMeter.setFormValues,
    EnergyMeter.setVisible, bind, get_state, modify. cbn -[EnergyMeter.afterRender].
  rewrite Hsel. by destruct (EnergyMeter.afterRender _ _) as [[[] ?] ?].
Qed.

Lemma channels_ClickModify st row :
  Channels.selectedRow st = Some row →
  Channels.id (obj row) ≠ 0 →
  Channels.handle Channels.ClickModify st
  = Channels.afterRender (Channels.editedRow st)
      (Channels.mkState (Channels.lazyState st) (Some row) (Some row) true
         (Channels.confirmDialogVisible st) (Channels.energy_meterValues st)
         (Channels.formValues st) (Channels.toast_current st) (Channels.pending st)).
Proof.
  intros Hsel Hid. apply Z.eqb_neq in Hid.
  unfold Channels.handle, Channels.button_disabled. unfold bind at 1, get_state at 1.
  rewrite Hsel, Hid. cbn [negb].
  unfold Channels.setEditedRow, Channels.setVisible, bind, get_state, modify.
  cbn -[Channels.afterRender].
  rewrite Hsel. by destruct (Channels.afterRender _ _) as [[[] ?] ?].
Qed.

(** X9. New opens the dialog with no edited row and no selection.  The form
    is reset to its blank values only when a row was being edited; when none
    was, the form keeps the values it held.  On the channels page the reset
    comes with one GET of the energy meters. *)
Theorem new_resets_after_edit_only (stC : Channels.State) (stE : EnergyMeter.State) :
  let stC' := exec (Channels.handle Channels.ClickNew) stC in
  let tC := trace (Channels.handle Channels.ClickNew) stC in
  let stE' := exec (EnergyMeter.handle EnergyMeter.ClickNew) stE in
  let tE := trace (EnergyMeter.handle EnergyMeter.ClickNew) stE in
  (Channels.editedRow stC' = None ∧ Channels.selectedRow stC' = None
   ∧ Channels.visible stC' = true
   ∧ (Channels.editedRow stC = None → Channels.formValues stC' = Channels.formValues stC
                                       ∧ tC = [])
   ∧ (Channels.editedRow stC ≠ None →
        Channels.formValues stC' = Channels_blank_form
        ∧ tC = [Fetch {| url := "/api/admin/crud/energy_meter"; method := GET;
                         body := None |}]))
  ∧ (EnergyMeter.editedRow stE' = None ∧ EnergyMeter.selectedRow stE' = None
     ∧ EnergyMeter.visible stE' = true ∧ tE = []
     ∧ (EnergyMeter.editedRow stE = None →
          EnergyMeter.formValues stE' = EnergyMeter.formValues stE)
     ∧ (EnergyMeter.editedRow stE ≠ None →
          EnergyMeter.formValues stE' = EnergyMeter_blank_form)).
Proof.
  cbv zeta. unfold exec, trace.
  rewrite channels_ClickNew, energy_meter_ClickNew, channels_afterRender,
    energy_meter_afterRender, channels_editedRowEffect, energy_meter_editedRowEffect.
  unfold Object_is. cbn [Channels.editedRow EnergyMeter.editedRow].
  split.
  - destruct (Channels.editedRow stC) as [row|]; cbn; repeat split; done.
  - destruct (EnergyMeter.editedRow stE) as [row|]; cbn; repeat split; done.
Qed.

(** X10. Modify on a selected energy meter edits that row and opens the
    dialog, without a request.  When another row, or none, was being edited
    the form is loaded with the row.  When this very row was being edited the
    form keeps its values, except the time zone, which becomes the default
    time zone. *)
Theorem energy_meter_modify_loads_form (st : EnergyMeter.State)
    (row : Ref EnergyMeter.EnergyMeterValues) :
  EnergyMeter.selectedRow st = Some row →
  EnergyMeter.id (obj row) ≠ 0 →
  let st' := exec (EnergyMeter.handle EnergyMeter.ClickModify) st in
  EnergyMeter.editedRow st' = Some row
  ∧ EnergyMeter.visible st' = true
  ∧ trace (EnergyMeter.handle EnergyMeter.ClickModify) st = []
  ∧ (EnergyMeter.editedRow st ≠ Some row →
       EnergyMeter.formValues st' = EnergyMeter_form_of (obj row))
  ∧ (EnergyMeter.editedRow st = Some row →
       EnergyMeter.formValues st'
       = {| EnergyMeter.f_asset_name := EnergyMeter.f_asset_name (EnergyMeter.formValues st);
            EnergyMeter.f_ip_address := EnergyMeter.f_ip_address (EnergyMeter.formValues st);
            EnergyMeter.f_port := EnergyMeter.f_port (EnergyMeter.formValues st);
            EnergyMeter.f_time_zone := defaultTimeZone;
            EnergyMeter.f_enabled := EnergyMeter.f_enabled (EnergyMeter.formValues st) |}).
Proof.
  intros Hsel Hid. cbv zeta. unfold exec, trace.
  rewrite (energy_meter_ClickModify st row Hsel Hid), energy_meter_afterRender,
    energy_meter_editedRowEffect.
  apply Z.eqb_neq in Hid. unfold Object_is. cbn [EnergyMeter.editedRow]. rewrite Hid.
  case_bool_decide as Hsame; cbn; repeat split; done.
Qed.

(** X11. Modify on a selected channel edits that row and opens the dialog.
    When another row, or none, was being edited the form is loaded with the
    row and the energy meters are fetched once; when this very row was being
    edited the form keeps its values and nothing is sent. *)
Theorem channels_modify_loads_form (st : Channels.State)
    (row : Ref Channels.ChannelValues) :
  Channels.selectedRow st = Some row →
  Channels.id (obj row) ≠ 0 →
  let st' := exec (Channels.handle Channels.ClickModify) st in
  let t := trace (Channels.handle Channels.ClickModify) st in
  Channels.editedRow st' = Some row
  ∧ Channels.visible st' = true
  ∧ (Channels.editedRow st ≠ Some row →
       Channels.formValues st' = Channels_form_of (obj row)
       ∧ t = [Fetch {| url := "/api/admin/crud/energy_meter"; method := GET; body := None |}])
  ∧ (Channels.editedRow st = Some row →
       Channels.formValues st' = Channels.formValues st ∧ t = []).
Proof.
  intros Hsel Hid. cbv zeta. unfold exec, trace.
  rewrite (channels_ClickModify st row Hsel Hid), channels_afterRender,
    channels_editedRowEffect.
  apply Z.eqb_neq in Hid. unfold Object_is. cbn [Channels.editedRow]. rewrite Hid.
  case_bool_decide as Hsame; cbn; repeat split; done.
Qed.

(** *** The list request *)

(** X12. After a filter event the list query of either page asks for
    [first=0], after a page event for the [first] of the event; in both cases
    with the [rows] and the filters of the event. *)
Theorem list_request_follows_table_state (event : DataTableStateEvent)
    (stC : Channels.State) (stE : EnergyMeter.State) :
  let tail :=
    "&rowcount=" +:+ pretty (rows event) +:+ "&filter="
      +:+ encodeURIComponent (JSON_stringify (VObj (filters event))) in
  url <$> head (Channels.queryFn_fetches
                  (Channels.lazyState (exec (Channels.handle (Channels.Filter event)) stC)))
  = Some ("/api/admin/crud/channels?first=" +:+ "0" +:+ tail)
  ∧ url <$> head (Channels.queryFn_fetches
                    (Channels.lazyState (exec (Channels.handle (Channels.Page event)) stC)))
    = Some ("/api/admin/crud/channels?first=" +:+ pretty (first event) +:+ tail)
  ∧ url <$> head (EnergyMeter.queryFn_fetches
                    (EnergyMeter.lazyState
                       (exec (EnergyMeter.handle (EnergyMeter.Filter event)) stE)))
    = Some ("/api/admin/crud/energy_meter?first=" +:+ "0" +:+ tail)
  ∧ url <$> head (EnergyMeter.queryFn_fetches
                    (EnergyMeter.lazyState
                       (exec (EnergyMeter.handle (EnergyMeter.Page event)) stE)))
    = Some ("/api/admin/crud/energy_meter?first=" +:+ pretty (first event) +:+ tail).
Proof. cbn. repeat split. Qed.

End CrudMore.

(** ** Instances *)

Lemma channels_submit_round_trip_witness :
  let st := (@Channels.run example_platform channel_new Channels.mounted).1 in
  Channels.visible st = true
  ∧ Channels.toast_current st = true
  ∧ (∃ data, Channels.schema (Channels.formValues st) = Some data)
  ∧ ∃ r, requests (trace (@Channels.handleSubmit example_platform) st) = [r].
Proof.
  intros st.
  assert (Hvis : Channels.visible st = true) by (vm_compute; reflexivity).
  assert (Htoast : Channels.toast_current st = true) by (vm_compute; reflexivity).
  assert (Hdata : Channels.schema (Channels.formValues st)
                  = Some {| Channels.fv_energy_meter_id := 7; Channels.fv_channel := 1;
                            Channels.fv_channel_name := "L1"; Channels.fv_enabled := false |})
    by (vm_compute; reflexivity).
  split; [exact Hvis | split; [exact Htoast | split; [by eexists |]]].
  destruct (@channels_submit_round_trip example_platform st _ VNull VNull Hvis Htoast Hdata)
    as (r & Hr & _).
  exists r. exact Hr.
Defined.

Lemma energy_meter_submit_round_trip_witness :
  let st := (@EnergyMeter.run example_platform meter_new
               (@EnergyMeter.mounted example_platform)).1 in
  EnergyMeter.visible st = true
  ∧ EnergyMeter.toast_current st = true
  ∧ (∃ data, @EnergyMeter.schema example_platform (EnergyMeter.formValues st) = Some data)
  ∧ ∃ r, requests (trace (@EnergyMeter.handleSubmit example_platform) st) = [r].
Proof.
  intros st.
  assert (Hvis : EnergyMeter.visible st = true) by (vm_compute; reflexivity).
  assert (Htoast : EnergyMeter.toast_current st = true) by (vm_compute; reflexivity).
  assert (Hdata : @EnergyMeter.schema example_platform (EnergyMeter.formValues st)
                  = Some {| EnergyMeter.fv_asset_name := "Pump house";
                            EnergyMeter.fv_ip_address := "192.168.1.237";
                            EnergyMeter.fv_port := 50003;
                            EnergyMeter.fv_time_zone := "Europe/Budapest";
                            EnergyMeter.fv_enabled := false |})
    by (vm_compute; reflexivity).
  split; [exact Hvis | split; [exact Htoast | split; [by eexists |]]].
  destruct (@energy_meter_submit_round_trip example_platform st _ VNull VNull
              Hvis Htoast Hdata) as (r & Hr & _).
  exists r. exact Hr.
Defined.

Lemma channels_delete_round_trip_witness :
  let st := (@Channels.run example_platform
               [Channels.SelectionChange (Some channel_3)] Channels.mounted).1 in
  Channels.selectedRow st = Some channel_3
  ∧ Channels.id (obj channel_3) ≠ 0
  ∧ Channels.toast_current st = true
  ∧ (@Channels.run example_platform [Channels.ClickDelete; Channels.ConfirmHide] st).2 = [].
Proof.
  intros st.
  assert (Hsel : Channels.selectedRow st = Some channel_3) by (vm_compute; reflexivity).
  assert (Hid : Channels.id (obj channel_3) ≠ 0) by (cbn; lia).
  assert (Htoast : Channels.toast_current st = true) by (vm_compute; reflexivity).
  split; [exact Hsel | split; [exact Hid | split; [exact Htoast |]]].
  pose proof (@channels_delete_round_trip example_platform st channel_3 VNull VNull
                Hsel Hid Htoast) as Hflow.
  cbv zeta in Hflow. destruct Hflow as (_ & _ & ->). reflexivity.
Defined.

Lemma energy_meter_delete_round_trip_witness :
  let st := (@EnergyMeter.run example_platform
               [EnergyMeter.SelectionChange (Some meter_9)]
               (@EnergyMeter.mounted example_platform)).1 in
  EnergyMeter.selectedRow st = Some meter_9
  ∧ EnergyMeter.id (obj meter_9) ≠ 0
  ∧ EnergyMeter.toast_current st = true
  ∧ (@EnergyMeter.run example_platform
       [EnergyMeter.ClickDelete; EnergyMeter.ConfirmHide] st).2 = [].
Proof.
  intros st.
  assert (Hsel : EnergyMeter.selectedRow st = Some meter_9) by (vm_compute; reflexivity).
  assert (Hid : EnergyMeter.id (obj meter_9) ≠ 0) by (cbn; lia).
  assert (Htoast : EnergyMeter.toast_current st = true) by (vm_compute; reflexivity).
  split; [exact Hsel | split; [exact Hid | split; [exact Htoast |]]].
  pose proof (@energy_meter_delete_round_trip example_platform st meter_9 VNull VNull
                Hsel Hid Htoast) as Hflow.
  cbv zeta in Hflow. destruct Hflow as (_ & _ & ->). reflexivity.
Defined.

Lemma verb_follows_edited_row_witness :
  let stC := (@Channels.run example_platform channel_new Channels.mounted).1 in
  let stE := (@EnergyMeter.run example_platform meter_7_edit
                (@EnergyMeter.mounted example_platform)).1 in
  (∃ dataC, Channels.schema (Channels.formValues stC) = Some dataC)
  ∧ (∃ dataE, @EnergyMeter.schema example_platform (EnergyMeter.formValues stE) = Some dataE)
  ∧ (method <$> requests (trace (@Channels.handleSubmit example_platform) stC)) = [POST]
  ∧ (method <$> requests (trace (@EnergyMeter.handleSubmit example_platform) stE)) = [PUT].
Proof.
  intros stC stE.
  assert (HC : Channels.schema (Channels.formValues stC)
               = Some {| Channels.fv_energy_meter_id := 7; Channels.fv_channel := 1;
                         Channels.fv_channel_name := "L1"; Channels.fv_enabled := false |})
    by (vm_compute; reflexivity).
  assert (HE : @EnergyMeter.schema example_platform (EnergyMeter.formValues stE)
               = Some {| EnergyMeter.fv_asset_name := "Boiler room 2";
                         EnergyMeter.fv_ip_address := "192.168.1.237";
                         EnergyMeter.fv_port := 50003;
                         EnergyMeter.fv_time_zone := "Europe/Budapest";
                         EnergyMeter.fv_enabled := true |})
    by (vm_compute; reflexivity).
  split; [by eexists | split; [by eexists |]].
  subst stC stE.
  destruct (@verb_follows_edited_row example_platform channel_new _ meter_7_edit _ HC HE)
    as [-> ->].
  split; vm_compute; reflexivity.
Defined.

Lemma energy_meter_modify_loads_form_witness :
  let st := (@EnergyMeter.run example_platform
               [EnergyMeter.SelectionChange (Some meter_9)]
               (@EnergyMeter.mounted example_platform)).1 in
  EnergyMeter.selectedRow st = Some meter_9
  ∧ EnergyMeter.id (obj meter_9) ≠ 0
  ∧ EnergyMeter.editedRow
      (exec (@EnergyMeter.handle example_platform EnergyMeter.ClickModify) st)
    = Some meter_9.
Proof.
  intros st.
  assert (Hsel : EnergyMeter.selectedRow st = Some meter_9) by (vm_compute; reflexivity).
  assert (Hid : EnergyMeter.id (obj meter_9) ≠ 0) by (cbn; lia).
  split; [exact Hsel | split; [exact Hid |]].
  apply (@energy_meter_modify_loads_form example_platform st meter_9 Hsel Hid).
Defined.

Lemma channels_modify_loads_form_witness :
  let st := (@Channels.run example_platform
               [Channels.SelectionChange (Some channel_3)] Channels.mounted).1 in
  Channels.selectedRow st = Some channel_3
  ∧ Channels.id (obj channel_3) ≠ 0
  ∧ Channels.editedRow (exec (@Channels.handle example_platform Channels.ClickModify) st)
    = Some channel_3.
Proof.
  intros st.
  assert (Hsel : Channels.selectedRow st = Some channel_3) by (vm_compute; reflexivity).
  assert (Hid : Channels.id (obj channel_3) ≠ 0) by (cbn; lia).
  split; [exact Hsel | split; [exact Hid |]].
  apply (@channels_modify_loads_form example_platform st channel_3 Hsel Hid).
Defined.

Lemma format_tells_dates_apart_witness :
  valid_date (Home.mkDate 2023 3 7)
  ∧ Home.format_YYYY_MM_DD (Home.mkDate 2023 3 7) = "2023-03-07"
  ∧ ∀ d, valid_date d → Home.format_YYYY_MM_DD d = "2023-03-07" → d = Home.mkDate 2023 3 7.
Proof.
  assert (Hv : valid_date (Home.mkDate 2023 3 7)) by (unfold valid_date; cbn; lia).
  assert (Hf : Home.format_YYYY_MM_DD (Home.mkDate 2023 3 7) = "2023-03-07")
    by (vm_compute; reflexivity).
  split; [exact Hv | split; [exact Hf |]].
  intros d Hd Heq. apply (format_tells_dates_apart d (Home.mkDate 2023 3 7) Hd Hv).
  by rewrite Hf.
Defined.
